(** * Column, dtype and rename reconciliation of the polars CSV readers

    Shallow embedding of the argument reconciliation that
    [read_csv] and [read_csv_batched] of
    [py-polars/polars/io/csv/functions.py] perform before they hand the
    parse over to the native reader, and the properties the specification
    states about it; then the name conversions of the pyarrow branch of
    [read_csv] and the reconciliation of [scan_csv].

    Python values are modelled as follows.
    - [Sequence[int]] is [list Z], [Sequence[str]] is [list string];
      an argument that may be [None] is an [option].
    - A [dict] is an insertion-ordered association list with pairwise
      distinct keys ([pydict]); [d[k] = v] keeps the position of a key that
      is already present and appends a new one.
    - [raise] is the [Raise] constructor of [result]; statements are
      sequenced with the bind of that monad.
    - [handle_projection_columns] lives in [polars.utils.various]; the
      development starts from the pair [(projection, columns)] it returns. *)

From stdpp Require Import base list strings pretty.
From Stdlib Require Import ZArith Lia Ascii.

Local Open Scope Z_scope.

(** ** Python values *)

(** The data types a caller can name. The readers never inspect a data
    type; the only one they construct is the placeholder [Utf8]. *)
Inductive PolarsDataType : Type :=
  | Utf8 | Int64 | Float64 | Boolean | Date.

#[global] Instance PolarsDataType_eq_dec : EqDecision PolarsDataType.
Proof. solve_decision. Defined.

Inductive exception : Type :=
  | ValueError (msg : string)
  | IndexError (msg : string).

#[global] Instance exception_eq_dec : EqDecision exception.
Proof. solve_decision. Defined.

Inductive result (A : Type) : Type :=
  | Ok (a : A)
  | Raise (e : exception).

Arguments Ok {A} a.
Arguments Raise {A} e.

#[global] Instance result_ret : MRet result := λ A a, Ok a.
#[global] Instance result_bind : MBind result := λ A B f m,
  match m with
  | Ok a => f a
  | Raise e => Raise e
  end.

(** Truth value of an optional sequence: [None] and the empty sequence
    are false. *)
Definition truthy {A} (o : option (list A)) : bool :=
  match o with
  | Some (_ :: _) => true
  | _ => false
  end.

(** The sequence behind an optional argument that tested true. *)
Definition seq_of {A} (o : option (list A)) : list A :=
  match o with
  | Some l => l
  | None => []
  end.

Module PyList.

(** [l[i] = v]: a negative index counts from the end, an index outside
    [-len(l) .. len(l)-1] raises [IndexError]. *)
Definition setitem {A} (l : list A) (i : Z) (v : A) : result (list A) :=
  let n := Z.of_nat (length l) in
  if bool_decide (0 ≤ i < n) then Ok (<[Z.to_nat i := v]> l)
  else if bool_decide (- n ≤ i < 0) then Ok (<[Z.to_nat (i + n) := v]> l)
  else Raise (IndexError "list assignment index out of range").

(** [[x] * n]: empty when [n <= 0]. *)
Definition repeat {A} (x : A) (n : Z) : list A := replicate (Z.to_nat n) x.

(** [max(l)]. *)
Definition max (l : list Z) : result Z :=
  match l with
  | [] => Raise (ValueError "max() arg is an empty sequence")
  | x :: xs => Ok (foldr Z.max x xs)
  end.

(** [range(a, b)]. *)
Definition range (a b : Z) : list Z := seqZ a (b - a).

End PyList.

Module PyDict.

Definition pydict (V : Type) : Type := list (string * V).

(** [d[k] = v]. *)
Fixpoint setitem {V} (k : string) (v : V) (d : pydict V) : pydict V :=
  match d with
  | [] => [(k, v)]
  | (k', v') :: d' =>
      if decide (k = k') then (k', v) :: d' else (k', v') :: setitem k v d'
  end.

(** [d.get(k)]. *)
Fixpoint get {V} (k : string) (d : pydict V) : option V :=
  match d with
  | [] => None
  | (k', v') :: d' => if decide (k = k') then Some v' else get k d'
  end.

(** [d.get(k, dflt)]. *)
Definition get_default {V} (d : pydict V) (k : string) (dflt : V) : V :=
  default dflt (get k d).

(** [dict(pairs)] and the dict comprehension: the pairs are inserted
    from left to right. *)
Definition of_pairs {V} (pairs : list (string * V)) : pydict V :=
  foldl (λ d kv, setitem kv.1 kv.2 d) [] pairs.

Definition keys {V} (d : pydict V) : list string := d.*1.

(** Well-formedness of a dict value: its keys are pairwise distinct. *)
Definition wf {V} (d : pydict V) : Prop := NoDup (keys d).

End PyDict.

Abbreviation pydict := PyDict.pydict.

(** The [dtypes] argument: [None], a [list] or a [dict]. *)
Inductive dtypes_arg : Type :=
  | DtNone
  | DtList (l : list PolarsDataType)
  | DtDict (d : pydict PolarsDataType).

#[global] Instance dtypes_arg_eq_dec : EqDecision dtypes_arg.
Proof. solve_decision. Defined.

(** Truth value of [dtypes]. *)
Definition dtypes_truthy (dtypes : dtypes_arg) : bool :=
  match dtypes with
  | DtNone => false
  | DtList l => bool_decide (l ≠ [])
  | DtDict d => bool_decide (d ≠ [])
  end.

Definition isinstance_list (dtypes : dtypes_arg) : bool :=
  match dtypes with DtList _ => true | _ => false end.

Definition isinstance_dict (dtypes : dtypes_arg) : bool :=
  match dtypes with DtDict _ => true | _ => false end.

Definition as_list (dtypes : dtypes_arg) : list PolarsDataType :=
  match dtypes with DtList l => l | _ => [] end.

Definition as_dict (dtypes : dtypes_arg) : pydict PolarsDataType :=
  match dtypes with DtDict d => d | _ => [] end.

(** [len(dtypes)] for a list or a dict. *)
Definition dtypes_len (dtypes : dtypes_arg) : nat :=
  match dtypes with
  | DtNone => 0%nat
  | DtList l => length l
  | DtDict d => length d
  end.

(** The value of [columns if columns else projection]. *)
Inductive columns_arg : Type :=
  | ByName (columns : list string)
  | ByIndex (projection : option (list Z)).

#[global] Instance columns_arg_eq_dec : EqDecision columns_arg.
Proof. solve_decision. Defined.

Definition columns_or_projection
    (projection : option (list Z)) (columns : option (list string)) : columns_arg :=
  if truthy columns then ByName (seq_of columns) else ByIndex projection.

(** What the reader is handed once reconciliation is over. [PyArrowBranch]
    stands for control entering the pyarrow branch of [read_csv], which
    passes no data types on. *)
Inductive reader_call : Type :=
  | NativeReader (columns : columns_arg) (dtypes : dtypes_arg)
  | PyArrowBranch.

#[global] Instance reader_call_eq_dec : EqDecision reader_call.
Proof. solve_decision. Defined.

(** [f"column_{n}"]. *)
Definition column_name (n : Z) : string := "column_" +:+ pretty n.

(** [column.startswith("column_")]. *)
Definition startswith_column_ (column : string) : bool :=
  String.prefix "column_" column.

(** ** [read_csv] *)

Definition msg_not_autogenerated : string :=
  "specified column names do not start with 'column_',"
  +:+ " but autogenerated header names were requested".

Definition msg_more_dtypes : string :=
  "more dtypes overrides are specified than there are selected columns".

Definition msg_more_new_columns : string :=
  "more new column names are specified than there are selected"
  +:+ " columns".

(** [for column in columns: if not column.startswith("column_"): raise ...] *)
Fixpoint check_autogenerated (columns : list string) : result unit :=
  match columns with
  | [] => Ok ()
  | column :: rest =>
      if negb (startswith_column_ column)
      then Raise (ValueError msg_not_autogenerated)
      else check_autogenerated rest
  end.

(** [for idx, column_idx in enumerate(projection):
       if idx < len(dtypes): dtypes_list[column_idx] = dtypes[idx]],
    started at position [idx] of the enumeration. *)
Fixpoint fill_dtypes_list (idx : nat) (projection : list Z)
    (dtypes dtypes_list : list PolarsDataType) : result (list PolarsDataType) :=
  match projection with
  | [] => Ok dtypes_list
  | column_idx :: rest =>
      match dtypes !! idx with
      | Some dtype =>
          dtypes_list ← PyList.setitem dtypes_list column_idx dtype;
          fill_dtypes_list (S idx) rest dtypes dtypes_list
      | None => fill_dtypes_list (S idx) rest dtypes dtypes_list
      end
  end.

(** Lines 271-285: a list of dtypes together with a projection. *)
Definition dtypes_with_projection
    (projection : option (list Z)) (dtypes : dtypes_arg) : result dtypes_arg :=
  if truthy projection && dtypes_truthy dtypes && isinstance_list dtypes then
    let projection := seq_of projection in
    if (length projection <? length (as_list dtypes))%nat then
      Raise (ValueError msg_more_dtypes)
    else
      m ← PyList.max projection;
      let dtypes_list := PyList.repeat Utf8 (m + 1) in
      dtypes_list ← fill_dtypes_list 0 projection (as_list dtypes) dtypes_list;
      Ok (DtList dtypes_list)
  else Ok dtypes.

(** Lines 287-296: a list of dtypes together with selected column names. *)
Definition dtypes_with_columns
    (columns : option (list string)) (dtypes : dtypes_arg) : result dtypes_arg :=
  if truthy columns && dtypes_truthy dtypes && isinstance_list dtypes then
    let columns := seq_of columns in
    if (length columns <? length (as_list dtypes))%nat then
      Raise (ValueError msg_more_dtypes)
    else
      Ok (DtDict (PyDict.of_pairs (zip columns (as_list dtypes))))
  else Ok dtypes.

(** Lines 304-349: the names the first [len(new_columns)] columns have in
    the file, when they are known before parsing ([current_columns]),
    together with [dtypes], which the header-present branch may turn into
    a list. The comprehension
    [[dtypes[n] for n in new_columns[0:len(dtypes)] if n in dtypes]]
    is [omap] of the dict lookup. *)
Definition current_columns_of (has_header : bool)
    (projection : option (list Z)) (columns : option (list string))
    (new_columns : list string) (dtypes : pydict PolarsDataType)
    : result (option (list string) * dtypes_arg) :=
  if truthy columns then
    let columns := seq_of columns in
    if (length columns <? length new_columns)%nat then
      Raise (ValueError msg_more_new_columns)
    else
      Ok (Some (take (length new_columns) columns), DtDict dtypes)
  else if negb has_header then
    if truthy projection then
      if truthy columns && (length (seq_of columns) <? length new_columns)%nat then
        Raise (ValueError msg_more_new_columns)
      else
        Ok (Some ((λ column_idx, column_name (column_idx + 1)) <$> seq_of projection),
            DtDict dtypes)
    else
      Ok (Some (column_name <$> PyList.range 1 (Z.of_nat (length new_columns) + 1)),
          DtDict dtypes)
  else
    if (length dtypes <=? length new_columns)%nat then
      let dtype_list :=
        omap (λ new_column_name, PyDict.get new_column_name dtypes)
             (take (length dtypes) new_columns) in
      if (length dtype_list =? length dtypes)%nat then Ok (None, DtList dtype_list)
      else Ok (None, DtDict dtypes)
    else Ok (None, DtDict dtypes).

(** Lines 352-357: [{new_to_current.get(name, name): dtype
                     for name, dtype in dtypes.items()}]. *)
Definition rename_dtypes (new_columns current_columns : list string)
    (dtypes : pydict PolarsDataType) : pydict PolarsDataType :=
  let new_to_current := PyDict.of_pairs (zip new_columns current_columns) in
  PyDict.of_pairs
    ((λ item, (PyDict.get_default new_to_current item.1 item.1, item.2)) <$> dtypes).

(** Lines 298-357: a dict of dtypes together with new column names. *)
Definition dtypes_with_new_columns (has_header : bool)
    (projection : option (list Z)) (columns : option (list string))
    (new_columns : option (list string)) (dtypes : dtypes_arg) : result dtypes_arg :=
  if truthy new_columns && dtypes_truthy dtypes && isinstance_dict dtypes then
    let new_columns := seq_of new_columns in
    '(current_columns, dtypes) ←
      current_columns_of has_header projection columns new_columns (as_dict dtypes);
    if truthy current_columns && isinstance_dict dtypes then
      Ok (DtDict (rename_dtypes new_columns (seq_of current_columns) (as_dict dtypes)))
    else Ok dtypes
  else Ok dtypes.

(** [read_csv] from line 195, where [handle_projection_columns] has
    returned [projection] and [columns], as far as the call of the native
    reader at line 366. [pyarrow_eligible] is the part of the condition of
    line 203 that does not depend on [dtypes]:
    [use_pyarrow and n_rows is None and n_threads is None
     and not low_memory and null_values is None].
    When that condition holds the result is [PyArrowBranch]; lines
    211-269 are embedded apart, as [include_columns] and
    [rename_pyarrow_columns]. *)
Definition read_csv (pyarrow_eligible has_header : bool)
    (projection : option (list Z)) (columns : option (list string))
    (new_columns : option (list string)) (dtypes : dtypes_arg) : result reader_call :=
  (if truthy columns && negb has_header
   then check_autogenerated (seq_of columns) else Ok ());;
  if pyarrow_eligible && bool_decide (dtypes = DtNone) then Ok PyArrowBranch
  else
    dtypes ← dtypes_with_projection projection dtypes;
    dtypes ← dtypes_with_columns columns dtypes;
    dtypes ← dtypes_with_new_columns has_header projection columns new_columns dtypes;
    Ok (NativeReader (columns_or_projection projection columns) dtypes).

(** ** [read_csv_batched] *)

Module Batched.

Definition msg_not_autogenerated : string :=
  "specified column names do not start with 'column_',"
  +:+ " but autogenerated header names were requested".

Definition msg_more_dtypes : string :=
  "more dtypes overrides are specified than there are selected columns".

Definition msg_more_new_columns : string :=
  "more new column names are specified than there are selected columns".

(** Lines 574-579. *)
Fixpoint check_autogenerated (columns : list string) : result unit :=
  match columns with
  | [] => Ok ()
  | column :: rest =>
      if negb (startswith_column_ column)
      then Raise (ValueError msg_not_autogenerated)
      else check_autogenerated rest
  end.

(** Lines 591-593. *)
Fixpoint fill_dtypes_list (idx : nat) (projection : list Z)
    (dtypes dtypes_list : list PolarsDataType) : result (list PolarsDataType) :=
  match projection with
  | [] => Ok dtypes_list
  | column_idx :: rest =>
      match dtypes !! idx with
      | Some dtype =>
          dtypes_list ← PyList.setitem dtypes_list column_idx dtype;
          fill_dtypes_list (S idx) rest dtypes dtypes_list
      | None => fill_dtypes_list (S idx) rest dtypes dtypes_list
      end
  end.

End Batched.

(** [read_csv_batched] from line 573, where [handle_projection_columns]
    has returned, as far as the construction of the [BatchedCsvReader] at
    line 667; the three blocks are written out in place, as they are in
    the source. *)
Definition read_csv_batched (has_header : bool)
    (projection : option (list Z)) (columns : option (list string))
    (new_columns : option (list string)) (dtypes : dtypes_arg) : result reader_call :=
  (if truthy columns && negb has_header
   then Batched.check_autogenerated (seq_of columns) else Ok ());;
  dtypes ←
    (if truthy projection && dtypes_truthy dtypes && isinstance_list dtypes then
       if (length (seq_of projection) <? length (as_list dtypes))%nat then
         Raise (ValueError Batched.msg_more_dtypes)
       else
         m ← PyList.max (seq_of projection);
         dtypes_list ←
           Batched.fill_dtypes_list 0 (seq_of projection) (as_list dtypes)
             (PyList.repeat Utf8 (m + 1));
         Ok (DtList dtypes_list)
     else Ok dtypes);
  dtypes ←
    (if truthy columns && dtypes_truthy dtypes && isinstance_list dtypes then
       if (length (seq_of columns) <? length (as_list dtypes))%nat then
         Raise (ValueError Batched.msg_more_dtypes)
       else Ok (DtDict (PyDict.of_pairs (zip (seq_of columns) (as_list dtypes))))
     else Ok dtypes);
  dtypes ←
    (if truthy new_columns && dtypes_truthy dtypes && isinstance_dict dtypes then
       let new_columns := seq_of new_columns in
       '(current_columns, dtypes) ←
         (if truthy columns then
            if (length (seq_of columns) <? length new_columns)%nat then
              Raise (ValueError Batched.msg_more_new_columns)
            else Ok (Some (take (length new_columns) (seq_of columns)), dtypes)
          else if negb has_header then
            if truthy projection then
              if truthy columns
                 && (length (seq_of columns) <? length new_columns)%nat then
                Raise (ValueError Batched.msg_more_new_columns)
              else
                Ok (Some ((λ column_idx, column_name (column_idx + 1))
                            <$> seq_of projection), dtypes)
            else
              Ok (Some (column_name
                          <$> PyList.range 1 (Z.of_nat (length new_columns) + 1)),
                  dtypes)
          else
            if (dtypes_len dtypes <=? length new_columns)%nat then
              let dtype_list :=
                omap (λ new_column_name, PyDict.get new_column_name (as_dict dtypes))
                     (take (dtypes_len dtypes) new_columns) in
              if (length dtype_list =? dtypes_len dtypes)%nat
              then Ok (None, DtList dtype_list)
              else Ok (None, dtypes)
            else Ok (None, dtypes));
       if truthy current_columns && isinstance_dict dtypes then
         let new_to_current :=
           PyDict.of_pairs (zip new_columns (seq_of current_columns)) in
         Ok (DtDict
               (PyDict.of_pairs
                  ((λ item, (PyDict.get_default new_to_current item.1 item.1, item.2))
                     <$> as_dict dtypes)))
       else Ok dtypes
     else Ok dtypes);
  Ok (NativeReader (columns_or_projection projection columns) dtypes).

(** ** Notions of the specification *)

(** A resolved selection as the pair that [handle_projection_columns]
    returns: a projection by index sets only [projection], a selection by
    name sets only [columns]. *)
Definition projection_of (selection : columns_arg) : option (list Z) :=
  match selection with
  | ByIndex projection => projection
  | ByName _ => None
  end.

Definition columns_of (selection : columns_arg) : option (list string) :=
  match selection with
  | ByIndex _ => None
  | ByName columns => Some columns
  end.

(** Number of selected columns. *)
Definition selected (selection : columns_arg) : nat :=
  match selection with
  | ByIndex projection => length (seq_of projection)
  | ByName columns => length columns
  end.

(** The pattern [column_<positive integer>]: the prefix, then a decimal
    numeral that does not start with a zero. *)
Definition is_digit (c : ascii) : bool :=
  let n := nat_of_ascii c in (48 <=? n)%nat && (n <=? 57)%nat.

Fixpoint all_digits (s : string) : bool :=
  match s with
  | EmptyString => true
  | String c rest => is_digit c && all_digits rest
  end.

Fixpoint strip_prefix (p s : string) : option string :=
  match p, s with
  | EmptyString, _ => Some s
  | String a p', String b s' => if decide (a = b) then strip_prefix p' s' else None
  | String _ _, EmptyString => None
  end.

Definition matches_column_n (name : string) : bool :=
  match strip_prefix "column_" name with
  | Some (String c rest) => all_digits (String c rest) && negb (bool_decide (c = "0"%char))
  | _ => false
  end.

(** A selection by name on a source without header uses names that
    pass the check of lines 195-201. *)
Definition passes_header_check (has_header : bool) (columns : list string) : Prop :=
  has_header = false → Forall (λ column, startswith_column_ column = true) columns.

(** [m] is the largest index of [projection]. *)
Definition is_max (projection : list Z) (m : Z) : Prop :=
  m ∈ projection ∧ ∀ i, i ∈ projection → i ≤ m.

(** The flat list the specification describes for a projection by index:
    [max(projection)+1] entries, the override of position [i] at index
    [projection[i]], the placeholder everywhere else. *)
Definition flat_dtypes (projection : list Z) (override dtypes_list : list PolarsDataType)
    : Prop :=
  (∀ m, is_max projection m → Z.of_nat (length dtypes_list) = m + 1)
  ∧ (∀ i column_idx dtype,
       projection !! i = Some column_idx → override !! i = Some dtype →
       dtypes_list !! Z.to_nat column_idx = Some dtype)
  ∧ (∀ j, (j < length dtypes_list)%nat →
       (∀ i, (i < length override)%nat → projection !! i ≠ Some (Z.of_nat j)) →
       dtypes_list !! j = Some Utf8).

(** The keyed map the specification describes for a selection by name:
    one entry per override, the [i]-th selected name mapped to the [i]-th
    override. *)
Definition keyed_dtypes (columns : list string) (override : list PolarsDataType)
    (dtypes : pydict PolarsDataType) : Prop :=
  PyDict.wf dtypes
  ∧ length dtypes = length override
  ∧ ∀ i column dtype,
      columns !! i = Some column → override !! i = Some dtype →
      PyDict.get column dtypes = Some dtype.

(** [rename] maps a final name back to the name the column has in the
    file: a name that stands at a position of [new_columns] for which
    [current_columns] has an entry goes to the current name at the last
    such position, every other name is kept. *)
Definition renames_back (new_columns current_columns : list string)
    (rename : string → string) : Prop :=
  ∀ name,
    ((∀ i, (i < length current_columns)%nat → new_columns !! i ≠ Some name)
     ∧ rename name = name)
    ∨ (∃ i, new_columns !! i = Some name
          ∧ current_columns !! i = Some (rename name)
          ∧ ∀ j, (i < j < length current_columns)%nat → new_columns !! j ≠ Some name).

(** The dtype map with every key sent through [rename]; as in a dict
    comprehension, a later item wins when two keys coincide. *)
Definition rekeyed (rename : string → string) (dtypes : pydict PolarsDataType)
    : pydict PolarsDataType :=
  PyDict.of_pairs ((λ item, (rename item.1, item.2)) <$> dtypes).

(** The positional list the specification describes for a source with
    header and no selection: the data types of [dtypes] in the order of
    [names]. *)
Definition positional_dtypes (names : list string) (dtypes : pydict PolarsDataType)
    (dtype_list : list PolarsDataType) : Prop :=
  Forall2 (λ name dtype, PyDict.get name dtypes = Some dtype) names dtype_list.

(** ** The pyarrow branch of [read_csv] *)

(** [s[n:]]. *)
Fixpoint str_drop (n : nat) (s : string) : string :=
  match n, s with
  | O, _ => s
  | S n', String _ rest => str_drop n' rest
  | S _, EmptyString => EmptyString
  end.

(** [f"f{n}"], the name pyarrow generates for the column of index [n]. *)
Definition pyarrow_name (n : Z) : string := "f" +:+ pretty n.

Section pyarrow_names.

(** Python's [int] on a [str]. *)
Variable int : string → result Z.

(** [[f"f{int(column[7:]) - 1}" for column in columns]], line 216. *)
Fixpoint pyarrow_names_of_columns (columns : list string) : result (list string) :=
  match columns with
  | [] => Ok []
  | column :: rest =>
      n ← int (str_drop 7 column);
      names ← pyarrow_names_of_columns rest;
      Ok (pyarrow_name (n - 1) :: names)
  end.

(** Lines 211-223: the value of [include_columns]. *)
Definition include_columns (has_header : bool)
    (projection : option (list Z)) (columns : option (list string))
    : result (option (list string)) :=
  include_columns ←
    (if truthy columns then
       if negb has_header then
         names ← pyarrow_names_of_columns (seq_of columns); Ok (Some names)
       else Ok (Some (seq_of columns))
     else Ok None);
  if negb (truthy columns) && truthy projection then
    Ok (Some (pyarrow_name <$> seq_of projection))
  else Ok include_columns.

(** [[f"column_{int(column[1:]) + 1}" for column in tbl.column_names]],
    line 263. *)
Fixpoint generated_names_of_pyarrow (column_names : list string) : result (list string) :=
  match column_names with
  | [] => Ok []
  | column :: rest =>
      n ← int (str_drop 1 column);
      names ← generated_names_of_pyarrow rest;
      Ok (column_name (n + 1) :: names)
  end.

(** Lines 259-264: the names given to the columns of the pyarrow table. *)
Definition rename_pyarrow_columns (has_header : bool) (column_names : list string)
    : result (list string) :=
  if negb has_header then generated_names_of_pyarrow column_names
  else Ok column_names.

End pyarrow_names.

(** What the pyarrow conversions need of [int]: it reads the decimal
    numeral of a natural number back. *)
Definition reads_decimal (int : string → result Z) : Prop :=
  ∀ n, 0 ≤ n → int (pretty n) = Ok n.

(** A reader of plain decimal numerals, which is what [int] is on them. *)
Definition digit_value (c : ascii) : option Z :=
  if is_digit c then Some (Z.of_nat (nat_of_ascii c) - 48) else None.

Fixpoint decimal_go (acc : Z) (s : string) : option Z :=
  match s with
  | EmptyString => Some acc
  | String c rest =>
      match digit_value c with
      | Some d => decimal_go (10 * acc + d) rest
      | None => None
      end
  end.

Definition decimal_int (s : string) : result Z :=
  match s with
  | EmptyString => Raise (ValueError "invalid literal for int() with base 10")
  | String _ _ =>
      match decimal_go 0 s with
      | Some n => Ok n
      | None => Raise (ValueError "invalid literal for int() with base 10")
      end
  end.

(** ** [scan_csv] *)

(** [scan_csv] also raises [TypeError]. *)
Inductive scan_exception : Type :=
  | TypeError (msg : string)
  | Raised (e : exception).

(** The arguments [scan_csv] hands to [LazyFrame._scan_csv]. *)
Inductive scan_call : Type :=
  | LazyScan (dtypes : dtypes_arg)
      (with_column_names : option (list string → list string)).

Definition msg_expected_dict : string :=
  "expected 'dtypes' dict, found 'list'".

Definition msg_mutually_exclusive : string :=
  "cannot set both `with_column_names` and `new_columns`; mutually exclusive".

(** Lines 895-899: the callable that wraps the new column names. *)
Definition with_new_columns (new_columns cols : list string) : list string :=
  if (length new_columns <? length cols)%nat
  then new_columns ++ drop (length new_columns) cols
  else new_columns.

(** [scan_csv], lines 885-899: the reconciliation of [dtypes],
    [new_columns] and [with_column_names]. *)
Definition scan_csv (new_columns : option (list string))
    (with_column_names : option (list string → list string)) (dtypes : dtypes_arg)
    : scan_exception + scan_call :=
  if negb (truthy new_columns) && isinstance_list dtypes then
    inl (TypeError msg_expected_dict)
  else if truthy new_columns then
    match with_column_names with
    | Some _ => inl (Raised (ValueError msg_mutually_exclusive))
    | None =>
        let dtypes :=
          if dtypes_truthy dtypes && isinstance_list dtypes
          then DtDict (PyDict.of_pairs (zip (seq_of new_columns) (as_list dtypes)))
          else dtypes in
        inr (LazyScan dtypes (Some (with_new_columns (seq_of new_columns))))
    end
  else inr (LazyScan dtypes with_column_names).

(** ** Outcomes *)

Definition succeeds {A} (r : result A) : Prop := ∃ a, r = Ok a.

(** The exceptions that lines 192-357 raise. *)
Definition msg_index : string := "list assignment index out of range".

Definition reconciliation_error (e : exception) : Prop :=
  e = ValueError msg_not_autogenerated
  ∨ e = ValueError msg_more_dtypes
  ∨ e = ValueError msg_more_new_columns
  ∨ e = IndexError msg_index.

(** ** Names and dicts, as the specification reads them *)

(** [s] is the decimal numeral of the natural number [n]: digits only,
    no leading zero unless [s] is the numeral 0, of value [n]. *)
Definition is_unsigned_numeral (n : Z) (s : string) : bool :=
  match s with
  | EmptyString => false
  | String c rest =>
      all_digits s
      && (negb (bool_decide (c = "0"%char)) || bool_decide (rest = EmptyString))
      && bool_decide (decimal_go 0 s = Some n)
  end.

(** [s] is the decimal numeral of the integer [n], with a minus sign in
    front when [n] is negative. *)
Definition is_numeral (n : Z) (s : string) : bool :=
  if bool_decide (0 ≤ n) then is_unsigned_numeral n s
  else
    match s with
    | String c rest => bool_decide (c = "-"%char) && is_unsigned_numeral (- n) rest
    | EmptyString => false
    end.

(** [name] is [column_<n>]. *)
Definition is_column_n (n : Z) (name : string) : bool :=
  match strip_prefix "column_" name with
  | Some s => is_numeral n s
  | None => false
  end.

(** [d] is the dict of a list of items: its keys are distinct, and it
    holds, for every key among the items, the value of the last item with
    that key, and nothing else. *)
Definition dict_of_items {V} (items : list (string * V)) (d : pydict V) : Prop :=
  NoDup d.*1
  ∧ ∀ k v,
      (k, v) ∈ d
      ↔ ∃ i, items !! i = Some (k, v)
             ∧ ∀ j v', (i < j)%nat → items !! j ≠ Some (k, v').

(** The position that index [i] addresses in a list of [n] entries: a
    negative index counts from the end. *)
Definition list_position (n : nat) (i : Z) : nat :=
  Z.to_nat (if bool_decide (0 ≤ i) then i else i + Z.of_nat n).

(** The flat list when indices may address a position twice: every
    position holds the override of the last index that addresses it, and
    the placeholder when none does. *)
Definition last_write_wins (projection : list Z)
    (override dtypes_list : list PolarsDataType) : Prop :=
  ∀ j, (j < length dtypes_list)%nat →
    (∃ i column_idx dtype,
        projection !! i = Some column_idx ∧ override !! i = Some dtype
        ∧ list_position (length dtypes_list) column_idx = j
        ∧ (∀ i' column_idx',
             (i < i' < length override)%nat → projection !! i' = Some column_idx' →
             list_position (length dtypes_list) column_idx' ≠ j)
        ∧ dtypes_list !! j = Some dtype)
    ∨ ((∀ i column_idx,
          (i < length override)%nat → projection !! i = Some column_idx →
          list_position (length dtypes_list) column_idx ≠ j)
       ∧ dtypes_list !! j = Some Utf8).

(** Closed decidable propositions are settled by evaluation. *)
Ltac decide_closed := apply (bool_decide_unpack _); vm_compute; exact I.

(** ** The calls of the specification's examples *)

Example read_csv_rename_selected :
  read_csv false true None (Some ["a"; "b"]) (Some ["x"; "y"])
    (DtDict [("x", Int64); ("y", Utf8)])
  = Ok (NativeReader (ByName ["a"; "b"]) (DtDict [("a", Int64); ("b", Utf8)])).
Proof. reflexivity. Qed.

Example read_csv_rename_header :
  read_csv false true None None (Some ["x"; "y"])
    (DtDict [("x", Int64); ("y", Utf8)])
  = Ok (NativeReader (ByIndex None) (DtList [Int64; Utf8])).
Proof. reflexivity. Qed.

Example read_csv_rename_headerless :
  read_csv false false None None (Some ["x"; "y"; "z"]) (DtDict [("x", Int64)])
  = Ok (NativeReader (ByIndex None) (DtDict [("column_1", Int64)])).
Proof. reflexivity. Qed.

Example read_csv_projection_list :
  read_csv false true (Some [3; 1]) None None (DtList [Int64; Float64])
  = Ok (NativeReader (ByIndex (Some [3; 1])) (DtList [Utf8; Float64; Utf8; Int64])).
Proof. reflexivity. Qed.

Example read_csv_rename_projection :
  read_csv false false (Some [4; 0]) None (Some ["x"; "y"; "z"])
    (DtDict [("y", Int64); ("z", Date)])
  = Ok (NativeReader (ByIndex (Some [4; 0]))
          (DtDict [("column_1", Int64); ("z", Date)])).
Proof. reflexivity. Qed.

Example read_csv_negative_index :
  read_csv false true (Some [-1]) None None (DtList [Int64])
  = Raise (IndexError "list assignment index out of range").
Proof. reflexivity. Qed.

(** ** Dicts *)

Section pydict_facts.
Context {V : Type}.
Implicit Types (d : pydict V) (k : string) (v : V).

Lemma get_setitem k k' v d :
  PyDict.get k (PyDict.setitem k' v d)
  = if decide (k = k') then Some v else PyDict.get k d.
Proof.
  induction d as [|[k0 v0] d IH]; simpl.
  - repeat case_decide; congruence.
  - destruct (decide (k' = k0)) as [->|Hne]; simpl.
    + repeat case_decide; congruence.
    + rewrite IH. repeat case_decide; congruence.
Qed.

Lemma get_None k d : PyDict.get k d = None ↔ k ∉ PyDict.keys d.
Proof.
  unfold PyDict.keys. induction d as [|[k0 v0] d IH]; simpl.
  - split; [intros _; apply not_elem_of_nil | done].
  - rewrite not_elem_of_cons, <- IH. case_decide; split; intros ?; try done.
    + by destruct_and!.
    + by destruct_and!.
Qed.

Lemma get_is_Some k d : is_Some (PyDict.get k d) ↔ k ∈ PyDict.keys d.
Proof.
  rewrite <- not_eq_None_Some, get_None.
  split; [apply dec_stable | auto].
Qed.

Lemma setitem_fresh k v d :
  k ∉ PyDict.keys d → PyDict.setitem k v d = d ++ [(k, v)].
Proof.
  unfold PyDict.keys. induction d as [|[k0 v0] d IH]; simpl; [done|].
  rewrite not_elem_of_cons. intros [? ?].
  case_decide; [done|]. by rewrite IH.
Qed.

Lemma of_pairs_snoc (l : list (string * V)) k v :
  PyDict.of_pairs (l ++ [(k, v)]) = PyDict.setitem k v (PyDict.of_pairs l).
Proof. unfold PyDict.of_pairs. by rewrite foldl_app. Qed.

(** A list of pairs with distinct keys is its own dict. *)
Lemma of_pairs_wf d : PyDict.wf d → PyDict.of_pairs d = d.
Proof.
  unfold PyDict.wf, PyDict.keys.
  induction d as [|[k v] d IH] using rev_ind; [done|].
  rewrite fmap_app. intros (Hd & Hk & _)%NoDup_app.
  rewrite of_pairs_snoc, IH by done.
  apply setitem_fresh. intros Hin. apply (Hk k Hin). simpl. left.
Qed.

Lemma keys_setitem k v d :
  PyDict.keys (PyDict.setitem k v d)
  = if decide (k ∈ PyDict.keys d) then PyDict.keys d else PyDict.keys d ++ [k].
Proof.
  unfold PyDict.keys. induction d as [|[k0 v0] d IH]; csimpl.
  - done.
  - destruct (decide (k = k0)) as [->|Hne]; csimpl.
    + rewrite decide_True by left. done.
    + rewrite IH. destruct (decide (k ∈ d.*1)).
      * rewrite decide_True by (by right). done.
      * rewrite decide_False; [done|]. rewrite elem_of_cons. by intros [?|?].
Qed.

Lemma of_pairs_is_wf (l : list (string * V)) : PyDict.wf (PyDict.of_pairs l).
Proof.
  induction l as [|[k v] l IH] using rev_ind; [constructor|].
  rewrite of_pairs_snoc. unfold PyDict.wf in *. rewrite keys_setitem.
  case_decide; [done|].
  apply NoDup_app. split_and!; [done | | apply NoDup_singleton].
  intros x Hx Hx'. apply list_elem_of_singleton in Hx'. by subst.
Qed.

(** Looking a key up in [dict(pairs)] finds the last pair with that key. *)
Lemma get_of_pairs (l : list (string * V)) k :
  (PyDict.get k (PyDict.of_pairs l) = None ∧ k ∉ l.*1)
  ∨ (∃ i v, PyDict.get k (PyDict.of_pairs l) = Some v
        ∧ l !! i = Some (k, v)
        ∧ ∀ j v', (i < j)%nat → l !! j ≠ Some (k, v')).
Proof.
  induction l as [|[k0 v0] l IH] using rev_ind.
  - left. split; [done | apply not_elem_of_nil].
  - rewrite of_pairs_snoc, get_setitem.
    destruct (decide (k = k0)) as [->|Hne].
    + right. exists (length l), v0. split_and!; [done | apply list_lookup_middle; done |].
      intros j v' Hj Hl. apply lookup_lt_Some in Hl.
      rewrite length_app in Hl. simpl in Hl. lia.
    + destruct IH as [[Hget Hnot]|(i & v & Hget & Hi & Hlast)].
      * left. split; [done|]. rewrite fmap_app, elem_of_app.
        intros [?|Hin]; [done|]. apply list_elem_of_singleton in Hin. done.
      * right. exists i, v. split_and!; [done | by apply lookup_app_l_Some |].
        intros j v' Hj Hl. apply lookup_app_Some in Hl as [Hl|[_ Hl]].
        -- by apply (Hlast j v').
        -- destruct (j - length l)%nat; simplify_eq/=.
Qed.


Lemma get_lookup_wf d i k v :
  PyDict.wf d → d !! i = Some (k, v) → PyDict.get k d = Some v.
Proof.
  unfold PyDict.wf, PyDict.keys. revert i.
  induction d as [|[k0 v0] d IH]; intros i Hwf Hi; [done|].
  apply NoDup_cons in Hwf as [Hk0 Hwf]. destruct i as [|i]; simpl in *.
  - simplify_eq. by rewrite decide_True.
  - rewrite decide_False; [by eapply IH|].
    intros ->. apply Hk0. apply list_elem_of_fmap. exists (k0, v).
    split; [done|]. by eapply list_elem_of_lookup_2.
Qed.

End pydict_facts.

(** ** Sequences *)

Lemma truthy_nonempty {A} (l : list A) : l ≠ [] → truthy (Some l) = true.
Proof. by destruct l. Qed.

Lemma nonempty_length {A} (l : list A) : l ≠ [] ↔ (0 < length l)%nat.
Proof. destruct l; simpl; split; (done || lia). Qed.

Lemma zip_take_r {A B} (l : list A) (k : list B) :
  zip l (take (length l) k) = zip l k.
Proof.
  revert k. induction l as [|x l IH]; intros [|y k]; simpl; try done.
  by rewrite IH.
Qed.

Lemma lookup_zip_Some {A B} (l : list A) (k : list B) i x y :
  zip l k !! i = Some (x, y) ↔ l !! i = Some x ∧ k !! i = Some y.
Proof.
  rewrite lookup_zip_with_Some. split.
  - intros (x' & y' & ? & ? & ?). by simplify_eq.
  - intros [? ?]. by exists x, y.
Qed.

Lemma is_max_foldr x xs : is_max (x :: xs) (foldr Z.max x xs).
Proof.
  unfold is_max. induction xs as [|y ys [IHin IHle]]; simpl.
  - split; [left|]. intros i ->%list_elem_of_singleton. done.
  - split.
    + destruct (Z.max_spec y (foldr Z.max x ys)) as [[_ ->]|[_ ->]].
      * apply elem_of_cons in IHin as [->|?]; [left | right; by right].
      * right; left.
    + intros i Hi. assert (i = y ∨ i ∈ x :: ys) as [->|Hi'].
      { apply elem_of_cons in Hi as [->|[->|?]%elem_of_cons].
        - right; left. - by left. - right; by right. }
      * lia.
      * specialize (IHle i Hi'). lia.
Qed.

Lemma is_max_unique projection m m' :
  is_max projection m → is_max projection m' → m = m'.
Proof.
  intros [Hin Hle] [Hin' Hle']. specialize (Hle _ Hin'). specialize (Hle' _ Hin). lia.
Qed.

(** ** The rename of the dtype keys *)

Lemma rename_dtypes_rekeyed new_columns current_columns dtypes :
  ∃ rename,
    renames_back new_columns current_columns rename
    ∧ rename_dtypes new_columns current_columns dtypes = rekeyed rename dtypes.
Proof.
  set (new_to_current := PyDict.of_pairs (zip new_columns current_columns)).
  exists (λ name, PyDict.get_default new_to_current name name).
  split; [|done]. intros name. unfold PyDict.get_default, new_to_current.
  destruct (get_of_pairs (zip new_columns current_columns) name)
    as [[Hget Hnot]|(i & current & Hget & Hi & Hlast)]; rewrite Hget; simpl.
  - left. split; [|done]. intros i Hi Hnew.
    destruct (lookup_lt_is_Some_2 current_columns i Hi) as [current Hcur].
    apply Hnot, list_elem_of_fmap. exists (name, current). split; [done|].
    apply list_elem_of_lookup. exists i. by apply lookup_zip_Some.
  - right. exists i. apply lookup_zip_Some in Hi as [Hnew Hcur].
    split_and!; [done..|]. intros j [Hij Hj] Hnew'.
    destruct (lookup_lt_is_Some_2 current_columns j Hj) as [current' Hcur'].
    apply (Hlast j current' Hij). by apply lookup_zip_Some.
Qed.

Lemma rekeyed_id rename dtypes :
  PyDict.wf dtypes →
  (∀ name, name ∈ PyDict.keys dtypes → rename name = name) →
  rekeyed rename dtypes = dtypes.
Proof.
  intros Hwf Hid. unfold rekeyed.
  rewrite <- (of_pairs_wf dtypes Hwf) at 2. f_equal.
  rewrite <- (list_fmap_id dtypes) at 2. apply list_fmap_ext.
  intros i [k v] Hi. simpl. f_equal. apply Hid.
  apply list_elem_of_fmap. exists (k, v). split; [done|].
  by eapply list_elem_of_lookup_2.
Qed.

(** Whatever the rename, the rewritten items form a dict. *)
Lemma rekeyed_wf rename dtypes : PyDict.wf (rekeyed rename dtypes).
Proof. apply of_pairs_is_wf. Qed.

Lemma renames_back_nil current_columns rename name :
  renames_back [] current_columns rename → rename name = name.
Proof. intros H. destruct (H name) as [[_ ?]|(i & Hi & _)]; done. Qed.

Lemma rename_dtypes_take new_columns current_columns dtypes :
  rename_dtypes new_columns (take (length new_columns) current_columns) dtypes
  = rename_dtypes new_columns current_columns dtypes.
Proof. unfold rename_dtypes. by rewrite zip_take_r. Qed.

(** ** The flat list for a projection by index *)

Lemma setitem_in_range {A} (l : list A) (i : Z) (v : A) :
  0 ≤ i < Z.of_nat (length l) → PyList.setitem l i v = Ok (<[Z.to_nat i := v]> l).
Proof. intros Hi. unfold PyList.setitem. by rewrite bool_decide_eq_true_2. Qed.

(** The loop of lines 281-283 on indices that are distinct and within the
    list: it raises nothing, writes the override of every enumerated
    position that has one, and leaves the other entries alone. *)
Lemma fill_dtypes_list_spec projection : ∀ idx dtypes dtypes_list,
  NoDup projection →
  Forall (λ column_idx, 0 ≤ column_idx < Z.of_nat (length dtypes_list)) projection →
  ∃ filled,
    fill_dtypes_list idx projection dtypes dtypes_list = Ok filled
    ∧ length filled = length dtypes_list
    ∧ (∀ i column_idx dtype,
         projection !! i = Some column_idx → dtypes !! (idx + i)%nat = Some dtype →
         filled !! Z.to_nat column_idx = Some dtype)
    ∧ (∀ j,
         (∀ i, (idx + i < length dtypes)%nat → projection !! i ≠ Some (Z.of_nat j)) →
         filled !! j = dtypes_list !! j).
Proof.
  induction projection as [|column_idx rest IH]; intros idx dtypes dtypes_list Hnodup Hrange.
  - exists dtypes_list. split_and!; done.
  - apply NoDup_cons in Hnodup as [Hfresh Hnodup].
    apply Forall_cons in Hrange as [Hidx Hrange]. simpl.
    destruct (dtypes !! idx) as [dtype0|] eqn:Hdtype.
    + rewrite setitem_in_range by done. simpl.
      destruct (IH (S idx) dtypes (<[Z.to_nat column_idx := dtype0]> dtypes_list))
        as (filled & Hrun & Hlen & Hset & Hkeep); [done | by rewrite length_insert |].
      rewrite length_insert in Hlen.
      exists filled. split_and!; [done..| |].
      * intros [|i] c dtype Hc Hd; simpl in *.
        -- simplify_eq. rewrite Nat.add_0_r in Hd. simplify_eq.
           rewrite Hkeep.
           ++ apply list_lookup_insert_eq. lia.
           ++ intros i _ Hi. apply Hfresh. apply list_elem_of_lookup_2 in Hi.
              by rewrite Z2Nat.id in Hi by lia.
        -- apply (Hset i); [done|]. by rewrite <- Nat.add_succ_comm in Hd.
      * intros j Hj. rewrite Hkeep.
        -- apply list_lookup_insert_ne. intros <-.
           apply (Hj 0%nat); simpl.
           ++ apply lookup_lt_Some in Hdtype. lia.
           ++ by rewrite Z2Nat.id by lia.
        -- intros i Hi. apply (Hj (S i)). lia.
    + destruct (IH (S idx) dtypes dtypes_list)
        as (filled & Hrun & Hlen & Hset & Hkeep); [done..|].
      exists filled. split_and!; [done..| |].
      * intros [|i] c dtype Hc Hd; simpl in *.
        -- rewrite Nat.add_0_r in Hd. congruence.
        -- apply (Hset i); [done|]. by rewrite <- Nat.add_succ_comm in Hd.
      * intros j Hj. apply Hkeep. intros i Hi. apply (Hj (S i)). lia.
Qed.

Lemma dtypes_with_projection_flat projection override :
  NoDup projection → Forall (λ column_idx, 0 ≤ column_idx) projection →
  override ≠ [] → (length override ≤ length projection)%nat →
  ∃ dtypes_list,
    dtypes_with_projection (Some projection) (DtList override) = Ok (DtList dtypes_list)
    ∧ flat_dtypes projection override dtypes_list.
Proof.
  intros Hnodup Hpos Hne Hlen. unfold dtypes_with_projection.
  assert (projection ≠ []) as Hp.
  { apply nonempty_length. apply nonempty_length in Hne. lia. }
  rewrite truthy_nonempty by done. simpl.
  rewrite bool_decide_eq_true_2 by done. simpl.
  destruct (Nat.ltb_spec (length projection) (length override)) as [?|_]; [lia|].
  destruct projection as [|x xs]; [done|]. cbn [PyList.max mbind result_bind].
  pose proof (is_max_foldr x xs) as Hmax. set (m := foldr Z.max x xs) in *.
  assert (0 ≤ m) as Hm.
  { destruct Hmax as [Hin _]. by eapply Forall_forall in Hpos. }
  assert (Z.of_nat (length (PyList.repeat Utf8 (m + 1))) = m + 1) as Hsize.
  { unfold PyList.repeat. rewrite length_replicate. lia. }
  destruct (fill_dtypes_list_spec (x :: xs) 0 override (PyList.repeat Utf8 (m + 1)))
    as (filled & Hrun & Hfilled & Hset & Hkeep); [done | |].
  { apply Forall_forall. intros i Hi. rewrite Hsize. destruct Hmax as [_ Hle].
    specialize (Hle i Hi). eapply Forall_forall in Hpos; [|done]. lia. }
  rewrite Hrun. exists filled. split; [done|]. split_and!.
  - intros m' Hm'. rewrite Hfilled, Hsize. f_equal. by eapply is_max_unique.
  - intros i column_idx dtype Hi Hd. by apply (Hset i).
  - intros j Hj Hother. rewrite Hkeep.
    + apply lookup_replicate_2. unfold PyList.repeat in Hfilled.
      rewrite length_replicate in Hfilled. lia.
    + intros i Hi. apply Hother. simpl in Hi. lia.
Qed.

(** ** The steps of [read_csv] *)

Lemma check_autogenerated_passes columns :
  Forall (λ column, startswith_column_ column = true) columns →
  check_autogenerated columns = Ok ().
Proof.
  induction 1 as [|column rest Hcolumn _ IH]; [done|].
  simpl. by rewrite Hcolumn.
Qed.

Lemma check_autogenerated_fails columns column :
  column ∈ columns → startswith_column_ column = false →
  check_autogenerated columns = Raise (ValueError msg_not_autogenerated).
Proof.
  intros Hin Hcolumn. induction columns as [|column' rest IH]; [by apply elem_of_nil in Hin|].
  simpl. destruct (startswith_column_ column') eqn:Hcolumn'; [|done]. simpl.
  apply IH. apply elem_of_cons in Hin as [->|?]; [congruence | done].
Qed.

Lemma check_autogenerated_cases columns :
  check_autogenerated columns = Ok ()
  ∨ check_autogenerated columns = Raise (ValueError msg_not_autogenerated).
Proof.
  induction columns as [|column rest IH]; [by left|].
  simpl. destruct (startswith_column_ column); simpl; [done | by right].
Qed.

Lemma header_check_passes has_header columns :
  passes_header_check has_header columns →
  (if truthy (Some columns) && negb has_header
   then check_autogenerated columns else Ok ()) = Ok ().
Proof.
  intros Hcheck. destruct (truthy (Some columns)), has_header; simpl; try done.
  by apply check_autogenerated_passes, Hcheck.
Qed.

(** With a [dtypes] argument the pyarrow branch is not taken. *)
Lemma read_csv_with_dtypes pyarrow_eligible has_header projection columns new_columns dtypes :
  dtypes ≠ DtNone →
  read_csv pyarrow_eligible has_header projection columns new_columns dtypes
  = ((if truthy columns && negb has_header
      then check_autogenerated (seq_of columns) else Ok ());;
     dtypes ← dtypes_with_projection projection dtypes;
     dtypes ← dtypes_with_columns columns dtypes;
     dtypes ← dtypes_with_new_columns has_header projection columns new_columns dtypes;
     Ok (NativeReader (columns_or_projection projection columns) dtypes)).
Proof.
  intros Hdtypes. unfold read_csv.
  rewrite (bool_decide_eq_false_2 _ Hdtypes), andb_false_r. done.
Qed.

Lemma dtypes_with_projection_skip projection dtypes :
  truthy projection = false ∨ isinstance_list dtypes = false →
  dtypes_with_projection projection dtypes = Ok dtypes.
Proof.
  unfold dtypes_with_projection. intros [->| ->]; [done|].
  by rewrite andb_false_r.
Qed.

Lemma dtypes_with_columns_skip columns dtypes :
  truthy columns = false ∨ isinstance_list dtypes = false →
  dtypes_with_columns columns dtypes = Ok dtypes.
Proof.
  unfold dtypes_with_columns. intros [->| ->]; [done|].
  by rewrite andb_false_r.
Qed.

Lemma dtypes_with_new_columns_skip has_header projection columns new_columns dtypes :
  truthy new_columns = false ∨ dtypes_truthy dtypes = false
  ∨ isinstance_dict dtypes = false →
  dtypes_with_new_columns has_header projection columns new_columns dtypes = Ok dtypes.
Proof.
  unfold dtypes_with_new_columns. intros [->|[->| ->]]; [done|..].
  - by rewrite andb_false_r.
  - by rewrite andb_false_r.
Qed.


(** ** Projection by index and a list of dtypes *)

(** C1, as stated, fails for the empty override: with
    [columns=[0, 1]] and [dtypes=[]] the guard of line 271 is false, the
    empty list is passed on, and it is not the list of [max+1]
    placeholders. *)
Lemma flat_dtypes_empty_override :
  NoDup [0; 1] ∧ Forall (λ column_idx, 0 ≤ column_idx) [0; 1]
  ∧ (length (@nil PolarsDataType) ≤ length [0; 1])%nat
  ∧ read_csv false true (Some [0; 1]) None None (DtList [])
    = Ok (NativeReader (ByIndex (Some [0; 1])) (DtList []))
  ∧ ¬ flat_dtypes [0; 1] [] [].
Proof.
  split_and!; [decide_closed | decide_closed | simpl; lia | reflexivity |].
  intros (Hlen & _). specialize (Hlen 1). simpl in Hlen.
  assert (is_max [0; 1] 1) as Hmax; [|specialize (Hlen Hmax); lia].
  split; [decide_closed|]. intros i Hi.
  apply elem_of_cons in Hi as [->|Hi]; [lia|].
  apply list_elem_of_singleton in Hi as ->. lia.
Qed.

(** C1 (amended). For every call with a projection by index of distinct
    non-negative indices and a non-empty list of dtypes that is not longer
    than the projection, whatever the other arguments, the dtypes handed
    to the reader are a flat list of length [max(projection)+1] in which
    position [projection[i]] holds [dtypes[i]] for every [i < len(dtypes)]
    and every other position holds [Utf8]. *)
Theorem flat_dtypes_for_projection
    pyarrow_eligible has_header projection new_columns override :
  NoDup projection →
  Forall (λ column_idx, 0 ≤ column_idx) projection →
  override ≠ [] →
  (length override ≤ length projection)%nat →
  ∃ dtypes_list,
    read_csv pyarrow_eligible has_header (Some projection) None new_columns
      (DtList override)
    = Ok (NativeReader (ByIndex (Some projection)) (DtList dtypes_list))
    ∧ flat_dtypes projection override dtypes_list.
Proof.
  intros Hnodup Hpos Hne Hlen.
  destruct (dtypes_with_projection_flat projection override)
    as (dtypes_list & Hstep & Hflat); [done..|].
  exists dtypes_list. split; [|done].
  rewrite read_csv_with_dtypes by done. simpl. rewrite Hstep. simpl.
  rewrite dtypes_with_new_columns_skip by auto. done.
Qed.

Lemma flat_dtypes_for_projection_witness :
  ∃ dtypes_list,
    read_csv false true (Some [3; 1]) None (Some ["x"; "y"]) (DtList [Int64; Float64])
    = Ok (NativeReader (ByIndex (Some [3; 1])) (DtList dtypes_list))
    ∧ flat_dtypes [3; 1] [Int64; Float64] dtypes_list.
Proof.
  apply flat_dtypes_for_projection;
    [decide_closed | decide_closed | done | simpl; lia].
Defined.

(** ** More dtypes than selected columns *)

(** C2, as stated, fails for a dict: [columns=["a"]] with a dict of two
    dtypes raises nothing, and neither does [columns=[0]]. *)
Lemma more_dict_dtypes_accepted :
  (selected (ByName ["a"]) < length [("a", Int64); ("b", Utf8)])%nat
  ∧ read_csv false true None (Some ["a"]) None (DtDict [("a", Int64); ("b", Utf8)])
    = Ok (NativeReader (ByName ["a"]) (DtDict [("a", Int64); ("b", Utf8)]))
  ∧ read_csv false true (Some [0]) None None (DtDict [("a", Int64); ("b", Utf8)])
    = Ok (NativeReader (ByIndex (Some [0])) (DtDict [("a", Int64); ("b", Utf8)])).
Proof. split_and!; [simpl; lia | reflexivity..]. Qed.

(** C2 (amended). For every call in which a list of dtypes has strictly
    more entries than a non-empty selection (projection by index or list
    of names), a [ValueError] is raised before the reader is called. *)
Theorem more_list_dtypes_rejected
    pyarrow_eligible has_header selection new_columns override :
  selected selection ≠ 0%nat →
  (selected selection < length override)%nat →
  ∃ msg,
    read_csv pyarrow_eligible has_header (projection_of selection)
      (columns_of selection) new_columns (DtList override)
    = Raise (ValueError msg).
Proof.
  intros Hsel Hlen. rewrite read_csv_with_dtypes by done.
  assert (override ≠ []) as Hne by (apply nonempty_length; lia).
  destruct selection as [columns|projection];
    cbn [projection_of columns_of selected] in *.
  - assert (columns ≠ []) as Hcolumns by (by apply nonempty_length; lia).
    rewrite truthy_nonempty by done. simpl.
    assert ((if negb has_header then check_autogenerated columns else Ok ()) = Ok ()
            ∨ (if negb has_header then check_autogenerated columns else Ok ())
              = Raise (ValueError msg_not_autogenerated)) as [-> | ->].
    { destruct has_header; simpl; [by left | apply check_autogenerated_cases]. }
    + simpl. unfold dtypes_with_columns. rewrite truthy_nonempty by done. simpl.
      rewrite bool_decide_eq_true_2 by done. simpl.
      destruct (Nat.ltb_spec (length columns) (length override)); [|lia].
      by eexists.
    + by eexists.
  - unfold dtypes_with_projection.
    destruct projection as [projection|]; [|done]. simpl in Hsel, Hlen.
    assert (projection ≠ []) as Hprojection by (by apply nonempty_length; lia).
    rewrite truthy_nonempty by done. simpl.
    rewrite bool_decide_eq_true_2 by done. simpl.
    destruct (Nat.ltb_spec (length projection) (length override)); [|lia].
    by eexists.
Qed.

Lemma more_list_dtypes_rejected_witness :
  ∃ msg,
    read_csv false true (projection_of (ByName ["a"])) (columns_of (ByName ["a"]))
      None (DtList [Int64; Utf8])
    = Raise (ValueError msg).
Proof.
  apply more_list_dtypes_rejected; [simpl; lia | simpl; lia].
Defined.

(** ** Generated names *)

Lemma is_digit_pretty_N_char x : is_digit (pretty_N_char x) = true.
Proof. unfold pretty_N_char. by repeat case_match. Qed.

Lemma pretty_N_go_digits x : ∀ s,
  all_digits s = true → all_digits (pretty_N_go x s) = true.
Proof.
  induction (N.lt_wf_0 x) as [x _ IH]; intros s Hs.
  destruct (decide (x = 0)%N) as [->|Hx]; [by rewrite pretty_N_go_0|].
  rewrite pretty_N_go_step by lia. apply IH.
  - apply N.div_lt; lia.
  - simpl. by rewrite is_digit_pretty_N_char, Hs.
Qed.

Lemma pretty_N_go_leading x : ∀ s,
  (0 < x)%N → ∃ c rest, pretty_N_go x s = String c rest ∧ c ≠ "0"%char.
Proof.
  induction (N.lt_wf_0 x) as [x _ IH]; intros s Hx.
  rewrite pretty_N_go_step by done.
  destruct (decide (x `div` 10 = 0)%N) as [Hdiv|Hdiv].
  - rewrite Hdiv, pretty_N_go_0. eexists _, _. split; [done|].
    apply N.div_small_iff in Hdiv; [|done].
    rewrite N.mod_small by done. clear IH.
    destruct x as [|p]; [lia|].
    do 4 (try destruct p as [p|p|]); (done || lia).
  - apply IH; [apply N.div_lt; lia | by apply N.neq_0_lt_0].
Qed.

Lemma strip_prefix_app p s : strip_prefix p (p +:+ s) = Some s.
Proof.
  induction p as [|a p IH]; [done|].
  change ((String a p) +:+ s) with (String a (p +:+ s)).
  cbn [strip_prefix]. by rewrite decide_True.
Qed.

Lemma strip_prefix_prefix p : ∀ s rest,
  strip_prefix p s = Some rest → String.prefix p s = true.
Proof.
  induction p as [|a p IH]; intros [|b s] rest Hstrip; simpl in *; try done.
  destruct (decide (a = b)) as [->|?]; [|done].
  destruct (Ascii.ascii_dec b b); [by eapply IH | done].
Qed.

(** The names generated for a source without header, [column_1],
    [column_2], ..., are of the form [column_<positive integer>]. *)
Lemma column_name_matches n : 0 < n → matches_column_n (column_name n) = true.
Proof.
  intros Hn. destruct n as [|p|p]; [lia| |lia].
  unfold column_name, matches_column_n.
  change (pretty (Z.pos p)) with (pretty_N_go (N.pos p) EmptyString).
  destruct (pretty_N_go_leading (N.pos p) EmptyString) as (c & rest & Hgo & Hc); [lia|].
  pose proof (pretty_N_go_digits (N.pos p) EmptyString eq_refl) as Hdigits.
  rewrite strip_prefix_app, Hgo in *.
  by rewrite Hdigits, bool_decide_eq_false_2.
Qed.

(** A name of that form passes the prefix test of line 197. *)
Lemma matches_column_n_startswith name :
  matches_column_n name = true → startswith_column_ name = true.
Proof.
  unfold matches_column_n, startswith_column_.
  destruct (strip_prefix "column_" name) as [rest|] eqn:Hstrip; [|done].
  intros _. by eapply strip_prefix_prefix.
Qed.

(** ** Selected names on a source without header *)

(** C5, as stated, fails: [column_x] is not of the form
    [column_<positive integer>], yet it passes the check of lines
    195-201, which looks at the prefix only. *)
Lemma column_x_accepted :
  matches_column_n "column_x" = false
  ∧ read_csv false false None (Some ["column_x"]) None DtNone
    = Ok (NativeReader (ByName ["column_x"]) DtNone).
Proof. split; reflexivity. Qed.

(** C5 (amended). For every call with [has_header=False] and a selection
    by name, if any selected name does not start with [column_], the
    [ValueError] of line 198 is raised before the reader is called. *)
Theorem names_without_prefix_rejected
    pyarrow_eligible projection columns new_columns dtypes column :
  column ∈ columns →
  startswith_column_ column = false →
  read_csv pyarrow_eligible false projection (Some columns) new_columns dtypes
  = Raise (ValueError msg_not_autogenerated).
Proof.
  intros Hin Hcolumn. unfold read_csv.
  rewrite truthy_nonempty by (intros ->; by apply elem_of_nil in Hin). simpl.
  by rewrite (check_autogenerated_fails columns column).
Qed.

Lemma names_without_prefix_rejected_witness :
  read_csv false false None (Some ["column_1"; "b"]) None DtNone
  = Raise (ValueError msg_not_autogenerated).
Proof.
  apply (names_without_prefix_rejected _ _ _ _ _ "b"); [decide_closed | reflexivity].
Defined.

(** ** More new names than selected names *)

(** C8, as stated, fails for the empty dict: the check of line 305 sits
    inside the block guarded by the truth value of [dtypes]. *)
Lemma more_new_columns_empty_dict :
  (length ["a"] < length ["x"; "y"])%nat
  ∧ read_csv false true None (Some ["a"]) (Some ["x"; "y"]) (DtDict [])
    = Ok (NativeReader (ByName ["a"]) (DtDict [])).
Proof. split; [simpl; lia | reflexivity]. Qed.

Lemma rename_list_too_long has_header projection columns new_columns dtypes :
  columns ≠ [] → dtypes ≠ [] → (length columns < length new_columns)%nat →
  dtypes_with_new_columns has_header projection (Some columns) (Some new_columns)
    (DtDict dtypes)
  = Raise (ValueError msg_more_new_columns).
Proof.
  intros Hcolumns Hdtypes Hlen.
  assert (new_columns ≠ []) as Hnew by (apply nonempty_length; lia).
  unfold dtypes_with_new_columns, current_columns_of.
  rewrite !truthy_nonempty by done. cbn [dtypes_truthy isinstance_dict].
  rewrite bool_decide_eq_true_2 by done. cbn [andb seq_of as_dict].
  destruct (Nat.ltb_spec (length columns) (length new_columns)); [done | lia].
Qed.

(** C8 (amended). For every call with a selection by name, a non-empty
    dict of dtypes and a list [new_columns] strictly longer than the
    selection, a [ValueError] is raised before the reader is called; it
    is "more new column names are specified than there are selected
    columns" whenever the names pass the check of lines 195-201. *)
Theorem more_new_columns_rejected
    pyarrow_eligible has_header columns new_columns dtypes :
  columns ≠ [] →
  dtypes ≠ [] →
  (length columns < length new_columns)%nat →
  ∃ msg,
    read_csv pyarrow_eligible has_header None (Some columns) (Some new_columns)
      (DtDict dtypes)
    = Raise (ValueError msg)
    ∧ (passes_header_check has_header columns → msg = msg_more_new_columns).
Proof.
  intros Hcolumns Hdtypes Hlen. rewrite read_csv_with_dtypes by done.
  cbn [seq_of].
  assert ((dtypes ← dtypes_with_projection None (DtDict dtypes);
           dtypes ← dtypes_with_columns (Some columns) dtypes;
           dtypes ← dtypes_with_new_columns has_header None (Some columns)
                      (Some new_columns) dtypes;
           Ok (NativeReader (columns_or_projection None (Some columns)) dtypes))
          = Raise (ValueError msg_more_new_columns)) as Hsteps.
  { rewrite dtypes_with_projection_skip by auto. cbn [mbind result_bind].
    rewrite dtypes_with_columns_skip by auto. cbn [mbind result_bind].
    by rewrite rename_list_too_long. }
  destruct (truthy (Some columns) && negb has_header) eqn:Hcond.
  - destruct (check_autogenerated_cases columns) as [Hpass|Hfail].
    + rewrite Hpass. by exists msg_more_new_columns.
    + rewrite Hfail. exists msg_not_autogenerated. split; [done|].
      intros Hpasses. apply header_check_passes in Hpasses.
      rewrite Hcond in Hpasses. congruence.
  - by exists msg_more_new_columns.
Qed.

Lemma more_new_columns_rejected_witness :
  ∃ msg,
    read_csv false false None (Some ["column_2"]) (Some ["x"; "y"])
      (DtDict [("x", Int64)])
    = Raise (ValueError msg)
    ∧ (passes_header_check false ["column_2"] → msg = msg_more_new_columns).
Proof.
  apply more_new_columns_rejected; [done | done | simpl; lia].
Defined.

(** ** Selection by name and a list of dtypes *)

Lemma fst_zip_take {A B} (l : list A) (k : list B) :
  (zip l k).*1 = take (length k) l.
Proof.
  revert k. induction l as [|x l IH]; intros [|y k]; csimpl; try done.
  by rewrite IH.
Qed.

Lemma dtypes_with_columns_keyed columns override :
  NoDup columns → override ≠ [] → (length override ≤ length columns)%nat →
  dtypes_with_columns (Some columns) (DtList override)
  = Ok (DtDict (zip columns override))
  ∧ keyed_dtypes columns override (zip columns override).
Proof.
  intros Hnodup Hne Hlen.
  assert (PyDict.wf (zip columns override)) as Hwf.
  { unfold PyDict.wf, PyDict.keys. rewrite fst_zip_take.
    eapply sublist_NoDup; [done | apply sublist_take]. }
  split.
  - unfold dtypes_with_columns.
    rewrite truthy_nonempty by (apply nonempty_length; apply nonempty_length in Hne; lia).
    cbn [dtypes_truthy isinstance_list as_list seq_of].
    rewrite bool_decide_eq_true_2 by done. cbn [andb].
    destruct (Nat.ltb_spec (length columns) (length override)); [lia|].
    by rewrite of_pairs_wf.
  - split_and!; [done | rewrite length_zip; lia |].
    intros i column dtype Hcolumn Hdtype.
    apply (get_lookup_wf _ i); [done|]. by apply lookup_zip_Some.
Qed.

(** C6, as stated, fails when a rename list comes with the call: the
    dict built from the list of dtypes enters the block of line 298, and
    a rename list longer than the selection is rejected there. *)
Lemma keyed_dtypes_long_rename :
  NoDup ["a"] ∧ (length [Int64] ≤ length ["a"])%nat
  ∧ read_csv false true None (Some ["a"]) (Some ["x"; "y"]) (DtList [Int64])
    = Raise (ValueError msg_more_new_columns).
Proof. split_and!; [decide_closed | simpl; lia | reflexivity]. Qed.

(** In the same block a selected name that is also a new name is taken
    for a new name: here the first selected column, [a], was given
    [Int64], and the dict handed to the reader gives [Int64] to [b]. *)
Lemma keyed_dtypes_swapped_names :
  read_csv false true None (Some ["a"; "b"]) (Some ["b"; "a"]) (DtList [Int64; Utf8])
  = Ok (NativeReader (ByName ["a"; "b"]) (DtDict [("b", Int64); ("a", Utf8)])).
Proof. reflexivity. Qed.

(** C6 (amended). For every call with a selection by (distinct) names and
    a non-empty list of dtypes that is not longer than the selection, and
    with no rename list, or one that is not longer than the selection and
    contains none of the names that receive a dtype, the dtypes handed to
    the reader are a dict with exactly [len(dtypes)] entries that maps
    the [i]-th selected name to [dtypes[i]] for every [i < len(dtypes)]. *)
Theorem keyed_dtypes_for_columns
    pyarrow_eligible has_header columns new_columns override :
  NoDup columns →
  passes_header_check has_header columns →
  override ≠ [] →
  (length override ≤ length columns)%nat →
  (length (seq_of new_columns) ≤ length columns)%nat →
  (∀ name, name ∈ take (length override) columns → name ∉ seq_of new_columns) →
  ∃ dtypes,
    read_csv pyarrow_eligible has_header None (Some columns) new_columns
      (DtList override)
    = Ok (NativeReader (ByName columns) (DtDict dtypes))
    ∧ keyed_dtypes columns override dtypes.
Proof.
  intros Hnodup Hcheck Hne Hlen Hnew Hdisjoint.
  destruct (dtypes_with_columns_keyed columns override) as [Hstep Hkeyed]; [done..|].
  exists (zip columns override). split; [|done].
  assert (columns ≠ []) as Hcolumns.
  { apply nonempty_length. apply nonempty_length in Hne. lia. }
  rewrite read_csv_with_dtypes by done.
  cbn [seq_of]. rewrite header_check_passes by done.
  cbn [mbind result_bind].
  rewrite dtypes_with_projection_skip by auto. cbn [mbind result_bind].
  rewrite Hstep. cbn [mbind result_bind].
  unfold columns_or_projection. rewrite truthy_nonempty by done.
  cbn [seq_of].
  enough (dtypes_with_new_columns has_header None (Some columns) new_columns
            (DtDict (zip columns override)) = Ok (DtDict (zip columns override)))
    as -> by done.
  destruct (truthy new_columns) eqn:Htruthy;
    [|by apply dtypes_with_new_columns_skip; left].
  destruct new_columns as [new_columns|]; [|done]. cbn [seq_of] in *.
  assert (new_columns ≠ []) as Hnew_ne by (by destruct new_columns).
  assert (zip columns override ≠ []) as Hzip.
  { apply nonempty_length. rewrite length_zip.
    apply nonempty_length in Hne, Hcolumns. lia. }
  unfold dtypes_with_new_columns, current_columns_of.
  rewrite Htruthy, truthy_nonempty by done.
  cbn [dtypes_truthy isinstance_dict as_dict seq_of].
  rewrite bool_decide_eq_true_2 by done. cbn [andb].
  destruct (Nat.ltb_spec (length columns) (length new_columns)); [lia|].
  cbn [mbind result_bind isinstance_dict as_dict seq_of].
  rewrite truthy_nonempty.
  2:{ apply nonempty_length. rewrite length_take.
      apply nonempty_length in Hnew_ne, Hcolumns. lia. }
  cbn [andb]. rewrite rename_dtypes_take.
  destruct (rename_dtypes_rekeyed new_columns columns (zip columns override))
    as (rename & Hrename & ->).
  do 2 f_equal. apply rekeyed_id; [by destruct Hkeyed|].
  intros name Hname. unfold PyDict.keys in Hname. rewrite fst_zip_take in Hname.
  destruct (Hrename name) as [[_ ?]|(i & Hi & _)]; [done|].
  destruct (Hdisjoint name Hname). by eapply list_elem_of_lookup_2.
Qed.

Lemma keyed_dtypes_for_columns_witness :
  ∃ dtypes,
    read_csv false true None (Some ["a"; "b"; "c"]) (Some ["x"; "y"])
      (DtList [Int64; Float64])
    = Ok (NativeReader (ByName ["a"; "b"; "c"]) (DtDict dtypes))
    ∧ keyed_dtypes ["a"; "b"; "c"] [Int64; Float64] dtypes.
Proof.
  apply keyed_dtypes_for_columns;
    [decide_closed | done | done | simpl; lia | simpl; lia |].
  intros name Hname. simpl in *. revert name Hname.
  apply Forall_forall. decide_closed.
Defined.

(** ** A dict of dtypes and new column names *)

(** The block of lines 298-357 when the current names are known: the
    keys are renamed through [current_columns]. With an empty rename list
    or an empty dict the block is skipped, which renames nothing. *)
Lemma dtypes_with_new_columns_known
    has_header projection columns new_columns dtypes current_columns :
  (new_columns = [] → PyDict.wf dtypes) →
  (new_columns ≠ [] → dtypes ≠ [] →
   current_columns ≠ []
   ∧ current_columns_of has_header projection columns new_columns dtypes
     = Ok (Some current_columns, DtDict dtypes)) →
  dtypes_with_new_columns has_header projection columns (Some new_columns)
    (DtDict dtypes)
  = Ok (DtDict (rename_dtypes new_columns current_columns dtypes)).
Proof.
  intros Hwf Hcurrent.
  destruct (decide (new_columns = [])) as [->|Hnew].
  { rewrite dtypes_with_new_columns_skip by auto.
    destruct (rename_dtypes_rekeyed [] current_columns dtypes) as (rename & Hrename & ->).
    rewrite rekeyed_id; [done | auto |].
    intros name _. by eapply renames_back_nil. }
  destruct (decide (dtypes = [])) as [->|Hdtypes].
  { by rewrite dtypes_with_new_columns_skip by auto. }
  destruct (Hcurrent Hnew Hdtypes) as [Hne Hrun].
  unfold dtypes_with_new_columns. rewrite truthy_nonempty by done.
  cbn [dtypes_truthy isinstance_dict as_dict seq_of].
  rewrite bool_decide_eq_true_2 by done. cbn [andb]. rewrite Hrun.
  cbn [mbind result_bind isinstance_dict as_dict seq_of].
  by rewrite truthy_nonempty by done.
Qed.

(** The steps before that block leave a dict of dtypes alone when the
    names pass the header check. *)
Lemma read_csv_dict pyarrow_eligible has_header projection columns new_columns dtypes :
  passes_header_check has_header (seq_of columns) →
  read_csv pyarrow_eligible has_header projection columns new_columns (DtDict dtypes)
  = (dtypes ← dtypes_with_new_columns has_header projection columns new_columns
                (DtDict dtypes);
     Ok (NativeReader (columns_or_projection projection columns) dtypes)).
Proof.
  intros Hcheck. rewrite read_csv_with_dtypes by done.
  assert ((if truthy columns && negb has_header
           then check_autogenerated (seq_of columns) else Ok ()) = Ok ()) as ->.
  { destruct columns as [columns|]; [|done]. by apply header_check_passes. }
  cbn [mbind result_bind].
  rewrite dtypes_with_projection_skip by auto. cbn [mbind result_bind].
  rewrite dtypes_with_columns_skip by auto. done.
Qed.

(** C3. For every call with a selection by name, a dict of dtypes and a
    rename list [new_columns] that is not longer than the selection,
    every key of the dict that occurs in [new_columns] is rewritten to
    the selected name at the same position (the last one, should the
    name occur twice) and every other key is kept; the dict handed to
    the reader is built from the rewritten items. *)
Theorem dtype_keys_renamed_to_selected
    pyarrow_eligible has_header columns new_columns dtypes :
  passes_header_check has_header columns →
  PyDict.wf dtypes →
  (length new_columns ≤ length columns)%nat →
  ∃ rename,
    renames_back new_columns columns rename
    ∧ read_csv pyarrow_eligible has_header None (Some columns) (Some new_columns)
        (DtDict dtypes)
      = Ok (NativeReader (columns_or_projection None (Some columns))
              (DtDict (rekeyed rename dtypes))).
Proof.
  intros Hcheck Hwf Hlen.
  destruct (rename_dtypes_rekeyed new_columns columns dtypes)
    as (rename & Hrename & Hrekeyed).
  exists rename. split; [done|].
  rewrite read_csv_dict by done.
  rewrite (dtypes_with_new_columns_known _ _ _ _ _ (take (length new_columns) columns)).
  - cbn [mbind result_bind]. by rewrite rename_dtypes_take, Hrekeyed.
  - done.
  - intros Hnew Hdtypes.
    assert (columns ≠ []) as Hcolumns.
    { apply nonempty_length. apply nonempty_length in Hnew. lia. }
    split.
    + apply nonempty_length. rewrite length_take.
      apply nonempty_length in Hnew, Hcolumns. lia.
    + unfold current_columns_of. rewrite truthy_nonempty by done. cbn [seq_of].
      by destruct (Nat.ltb_spec (length columns) (length new_columns)); [lia|].
Qed.

(** The example of C3, obtained from the theorem:
    [columns=["a","b"]], [new_columns=["x","y"]] and
    [dtypes={"x": Int64, "y": Utf8}] give [{"a": Int64, "b": Utf8}]. *)
Lemma dtype_keys_renamed_to_selected_witness :
  read_csv false true None (Some ["a"; "b"]) (Some ["x"; "y"])
    (DtDict [("x", Int64); ("y", Utf8)])
  = Ok (NativeReader (ByName ["a"; "b"]) (DtDict [("a", Int64); ("b", Utf8)])).
Proof.
  destruct (dtype_keys_renamed_to_selected false true ["a"; "b"] ["x"; "y"]
              [("x", Int64); ("y", Utf8)]) as (rename & Hrename & ->);
    [done | decide_closed | simpl; lia |].
  assert (rename "x" = "a") as Hx.
  { destruct (Hrename "x") as [[Hnone _]|(i & Hi & Hcur & _)].
    - by destruct (Hnone 0%nat); [simpl; lia|].
    - destruct i as [|[|[|i]]]; simplify_eq/=. done. }
  assert (rename "y" = "b") as Hy.
  { destruct (Hrename "y") as [[Hnone _]|(i & Hi & Hcur & _)].
    - by destruct (Hnone 1%nat); [simpl; lia|].
    - destruct i as [|[|[|i]]]; simplify_eq/=. done. }
  unfold rekeyed. cbn [fmap list_fmap fst snd]. rewrite Hx, Hy. reflexivity.
Defined.

(** ** A dict of dtypes, new column names and a header *)

Lemma omap_get_positional names (dtypes : pydict PolarsDataType) :
  (∀ name, name ∈ names → name ∈ PyDict.keys dtypes) →
  positional_dtypes names dtypes (omap (λ name, PyDict.get name dtypes) names).
Proof.
  unfold positional_dtypes. induction names as [|name names IH]; intros Hkeys; csimpl.
  - constructor.
  - destruct (proj2 (get_is_Some name dtypes)) as [dtype Hdtype]; [apply Hkeys; left|].
    rewrite Hdtype. constructor; [done|]. apply IH. intros ? ?. apply Hkeys. by right.
Qed.

Lemma length_omap_get names (dtypes : pydict PolarsDataType) :
  length (omap (λ name, PyDict.get name dtypes) names)
  = length (filter (λ name, name ∈ PyDict.keys dtypes) names).
Proof.
  induction names as [|name names IH]; csimpl; [done|].
  rewrite filter_cons. destruct (PyDict.get name dtypes) as [dtype|] eqn:Hget.
  - rewrite decide_True by (apply get_is_Some; eauto). simpl. by rewrite IH.
  - rewrite decide_False by (by apply get_None). done.
Qed.

(** Distinct keys that all occur in a list of as many names: the names
    are the keys, in some order. *)
Lemma keys_fill_prefix (keys names : list string) :
  NoDup keys → keys ⊆ names → length names = length keys →
  ∀ name, name ∈ names → name ∈ keys.
Proof.
  intros Hnodup Hsub Hlen name Hname.
  assert (keys ≡ₚ names) as Hperm.
  { apply submseteq_length_Permutation; [by apply NoDup_submseteq | lia]. }
  by rewrite Hperm.
Qed.

(** Distinct names of which some key is none: fewer names are keys than
    there are keys. *)
Lemma keys_miss_prefix (keys names : list string) :
  NoDup keys → NoDup names → ¬ keys ⊆ names →
  length (filter (λ name, name ∈ keys) names) ≠ length keys.
Proof.
  intros Hkeys Hnames Hmiss Hlen. apply Hmiss.
  assert (filter (λ name, name ∈ keys) names ≡ₚ keys) as Hperm.
  { apply submseteq_length_Permutation; [|lia].
    apply NoDup_submseteq; [by apply NoDup_filter|].
    by intros name [? _]%list_elem_of_filter. }
  intros key Hkey. rewrite <- Hperm in Hkey.
  by apply list_elem_of_filter in Hkey as [_ ?].
Qed.

(** C4, as stated, fails for the empty dict: the block of line 298 is
    skipped and the (empty) dict is handed on as a dict. *)
Lemma empty_dict_stays_keyed :
  (length (@nil (string * PolarsDataType)) ≤ length ["x"])%nat
  ∧ PyDict.keys (@nil (string * PolarsDataType)) ⊆ take 0 ["x"]
  ∧ read_csv false true None None (Some ["x"]) (DtDict [])
    = Ok (NativeReader (ByIndex None) (DtDict [])).
Proof.
  split_and!; [simpl; lia | | reflexivity].
  intros name Hname. by apply elem_of_nil in Hname.
Qed.

(** The count of line 348 takes a repeated new name for two keys: the key
    [y] is not among the first two new names, and the dict is turned into
    a list all the same. *)
Lemma repeated_new_name_counts_twice :
  ¬ PyDict.keys [("x", Int64); ("y", Utf8)] ⊆ take 2 ["x"; "x"]
  ∧ read_csv false true None None (Some ["x"; "x"]) (DtDict [("x", Int64); ("y", Utf8)])
    = Ok (NativeReader (ByIndex None) (DtList [Int64; Int64])).
Proof.
  split; [|reflexivity]. intros Hsub.
  assert ("y" ∈ take 2 ["x"; "x"]) as Hy by (apply Hsub; decide_closed).
  revert Hy. decide_closed.
Qed.

(** C4 (amended). For every call with a header, no selection, a rename
    list [new_columns] and a non-empty dict of at most [len(new_columns)]
    dtypes: if all keys occur among the first [len(dtypes)] new names,
    the dtypes handed to the reader are the list of the dict's values in
    the order of these names, and no dict; if these names are distinct
    and some key does not occur among them, the dict is handed on
    unchanged. *)
Theorem dtypes_by_position_with_header pyarrow_eligible new_columns dtypes :
  PyDict.wf dtypes →
  dtypes ≠ [] →
  (length dtypes ≤ length new_columns)%nat →
  (PyDict.keys dtypes ⊆ take (length dtypes) new_columns →
   ∃ dtype_list,
     read_csv pyarrow_eligible true None None (Some new_columns) (DtDict dtypes)
     = Ok (NativeReader (ByIndex None) (DtList dtype_list))
     ∧ positional_dtypes (take (length dtypes) new_columns) dtypes dtype_list)
  ∧ (NoDup (take (length dtypes) new_columns) →
     ¬ PyDict.keys dtypes ⊆ take (length dtypes) new_columns →
     read_csv pyarrow_eligible true None None (Some new_columns) (DtDict dtypes)
     = Ok (NativeReader (ByIndex None) (DtDict dtypes))).
Proof.
  intros Hwf Hdtypes Hlen.
  assert (new_columns ≠ []) as Hnew.
  { apply nonempty_length. apply nonempty_length in Hdtypes. lia. }
  assert (length (take (length dtypes) new_columns) = length dtypes) as Hprefix.
  { rewrite length_take. lia. }
  assert (length (PyDict.keys dtypes) = length dtypes) as Hkeys.
  { unfold PyDict.keys. by rewrite length_fmap. }
  rewrite read_csv_dict by (intros _; constructor).
  unfold dtypes_with_new_columns, current_columns_of.
  rewrite truthy_nonempty by done.
  cbn [dtypes_truthy isinstance_dict as_dict seq_of truthy negb].
  rewrite bool_decide_eq_true_2 by done. cbn [andb].
  destruct (Nat.leb_spec (length dtypes) (length new_columns)); [|lia].
  split.
  - intros Hsub.
    pose proof (omap_get_positional (take (length dtypes) new_columns) dtypes) as Hpos.
    eexists. split; [|apply Hpos].
    + erewrite (proj2 (Nat.eqb_eq _ _)); [done|].
      rewrite <- Hprefix at 2. symmetry. eapply Forall2_length, Hpos.
      apply keys_fill_prefix; [done..|lia].
    + apply keys_fill_prefix; [done..|lia].
  - intros Hnodup Hmiss.
    erewrite (proj2 (Nat.eqb_neq _ _)); [done|].
    rewrite length_omap_get. intros Heq.
    apply (keys_miss_prefix (PyDict.keys dtypes) (take (length dtypes) new_columns));
      [done..|congruence].
Qed.

(** The example of C4, obtained from the theorem: [new_columns=["x","y"]]
    and [dtypes={"x": Int64, "y": Utf8}] give the list [[Int64, Utf8]]. *)
Lemma dtypes_by_position_with_header_witness :
  read_csv false true None None (Some ["x"; "y"]) (DtDict [("x", Int64); ("y", Utf8)])
  = Ok (NativeReader (ByIndex None) (DtList [Int64; Utf8])).
Proof.
  destruct (dtypes_by_position_with_header false ["x"; "y"]
              [("x", Int64); ("y", Utf8)]) as [Hlist _];
    [decide_closed | done | simpl; lia |].
  destruct Hlist as (dtype_list & -> & Hpos).
  - decide_closed.
  - do 3 f_equal. unfold positional_dtypes in Hpos. simpl in Hpos.
    apply Forall2_cons_inv_l in Hpos as (t1 & rest1 & H1 & Hpos & ->).
    apply Forall2_cons_inv_l in Hpos as (t2 & rest2 & H2 & Hpos & ->).
    apply Forall2_nil_inv_l in Hpos as ->.
    by simplify_eq/=.
Defined.

(** ** The two readers *)

Lemma result_bind_eq {A B} (m m' : result A) (f g : A → result B) :
  m = m' → (∀ a, f a = g a) → m ≫= f = m' ≫= g.
Proof. intros <- Hfg. destruct m; simpl; [apply Hfg | done]. Qed.

Lemma batched_check_autogenerated columns :
  Batched.check_autogenerated columns = check_autogenerated columns.
Proof.
  induction columns as [|column rest IH]; [done|].
  simpl. by rewrite IH.
Qed.

Lemma batched_fill_dtypes_list projection : ∀ idx dtypes dtypes_list,
  Batched.fill_dtypes_list idx projection dtypes dtypes_list
  = fill_dtypes_list idx projection dtypes dtypes_list.
Proof.
  induction projection as [|column_idx rest IH]; intros idx dtypes dtypes_list; [done|].
  simpl. destruct (dtypes !! idx); [|apply IH].
  apply result_bind_eq; [done | intros ?; apply IH].
Qed.

(** The steps of [read_csv] past the pyarrow test are the steps of
    [read_csv_batched]. *)
Lemma native_steps_batched has_header projection columns new_columns dtypes :
  ((if truthy columns && negb has_header
    then check_autogenerated (seq_of columns) else Ok ());;
   dtypes ← dtypes_with_projection projection dtypes;
   dtypes ← dtypes_with_columns columns dtypes;
   dtypes ← dtypes_with_new_columns has_header projection columns new_columns dtypes;
   Ok (NativeReader (columns_or_projection projection columns) dtypes))
  = read_csv_batched has_header projection columns new_columns dtypes.
Proof.
  unfold read_csv_batched.
  apply result_bind_eq.
  { destruct (truthy columns && negb has_header); [|done].
    symmetry. apply batched_check_autogenerated. }
  intros _. apply result_bind_eq.
  { unfold dtypes_with_projection.
    destruct (truthy projection && dtypes_truthy dtypes && isinstance_list dtypes);
      [|done].
    destruct (length (seq_of projection) <? length (as_list dtypes))%nat; [done|].
    apply result_bind_eq; [done|]. intros m.
    apply result_bind_eq; [|done]. symmetry. apply batched_fill_dtypes_list. }
  intros dtypes1. apply result_bind_eq; [done|].
  intros dtypes2. apply result_bind_eq; [|done].
  unfold dtypes_with_new_columns.
  destruct dtypes2 as [|l|d]; cbn [dtypes_truthy isinstance_dict];
    rewrite ?andb_false_r; [done..|].
  destruct (truthy new_columns && bool_decide (d ≠ [])); [|done]. cbn [andb].
  apply result_bind_eq; [|done]. unfold current_columns_of. done.
Qed.

(** With [dtypes] given, [use_pyarrow] makes no difference. *)
Lemma read_csv_pyarrow_with_dtypes has_header projection columns new_columns dtypes :
  dtypes ≠ DtNone →
  read_csv true has_header projection columns new_columns dtypes
  = read_csv_batched has_header projection columns new_columns dtypes.
Proof.
  intros Hdtypes. rewrite read_csv_with_dtypes by done. apply native_steps_batched.
Qed.

(** C9. For every combination of [has_header], the resolved
    [projection] and [columns], [new_columns] and [dtypes], [read_csv]
    (with [use_pyarrow] off, as by default) and [read_csv_batched] hand
    the same selection and the same dtypes to their reader, and raise the
    same error with the same message in the same cases. *)
Theorem read_csv_batched_agrees has_header projection columns new_columns dtypes :
  read_csv false has_header projection columns new_columns dtypes
  = read_csv_batched has_header projection columns new_columns dtypes.
Proof.
  rewrite <- native_steps_batched. unfold read_csv. cbn [andb]. done.
Qed.

(** ** Which exceptions the reconciliation raises, and when *)

Lemma check_autogenerated_ok columns :
  check_autogenerated columns = Ok ()
  ↔ Forall (λ column, startswith_column_ column = true) columns.
Proof.
  split; [|apply check_autogenerated_passes].
  induction columns as [|column rest IH]; [constructor|].
  simpl. destruct (startswith_column_ column) eqn:Hcolumn; [|done]. simpl.
  intros Hrest. constructor; auto.
Qed.

Lemma header_check_ok has_header columns :
  columns ≠ [] →
  (if truthy (Some columns) && negb has_header
   then check_autogenerated columns else Ok ()) = Ok ()
  ↔ passes_header_check has_header columns.
Proof.
  intros Hcolumns. rewrite truthy_nonempty by done. unfold passes_header_check.
  destruct has_header; simpl; [done|].
  rewrite check_autogenerated_ok. split; auto.
Qed.

Lemma fill_dtypes_list_raises projection : ∀ idx dtypes dtypes_list e,
  fill_dtypes_list idx projection dtypes dtypes_list = Raise e →
  e = IndexError msg_index.
Proof.
  induction projection as [|column_idx rest IH]; intros idx dtypes dtypes_list e; [done|].
  simpl. destruct (dtypes !! idx) as [dtype|]; [|apply IH].
  unfold PyList.setitem. repeat case_bool_decide; simpl; [apply IH..|].
  by intros [= <-].
Qed.

(** On indices within the list the loop raises nothing, distinct or not. *)
Lemma fill_dtypes_list_in_range projection : ∀ idx dtypes dtypes_list,
  Forall (λ column_idx, 0 ≤ column_idx < Z.of_nat (length dtypes_list)) projection →
  ∃ filled,
    fill_dtypes_list idx projection dtypes dtypes_list = Ok filled
    ∧ length filled = length dtypes_list.
Proof.
  induction projection as [|column_idx rest IH]; intros idx dtypes dtypes_list Hrange.
  - by exists dtypes_list.
  - apply Forall_cons in Hrange as [Hidx Hrange]. simpl.
    destruct (dtypes !! idx) as [dtype|]; [|by apply IH].
    rewrite setitem_in_range by done. simpl.
    destruct (IH (S idx) dtypes (<[Z.to_nat column_idx := dtype]> dtypes_list))
      as (filled & Hrun & Hlen); [by rewrite length_insert|].
    exists filled. by rewrite length_insert in Hlen.
Qed.

Lemma dtypes_with_projection_raises projection dtypes e :
  dtypes_with_projection projection dtypes = Raise e →
  e = ValueError msg_more_dtypes ∨ e = IndexError msg_index.
Proof.
  unfold dtypes_with_projection.
  destruct (truthy projection && dtypes_truthy dtypes && isinstance_list dtypes)
    eqn:Hguard; [|done].
  destruct (length (seq_of projection) <? length (as_list dtypes))%nat.
  { intros [= <-]. by left. }
  destruct projection as [[|x xs]|]; try done. cbn [seq_of PyList.max mbind result_bind].
  destruct (fill_dtypes_list _ _ _ _) as [filled|e'] eqn:Hfill; [done|].
  intros [= <-]. right. by eapply fill_dtypes_list_raises.
Qed.

Lemma dtypes_with_columns_raises columns dtypes e :
  dtypes_with_columns columns dtypes = Raise e → e = ValueError msg_more_dtypes.
Proof.
  unfold dtypes_with_columns.
  destruct (truthy columns && dtypes_truthy dtypes && isinstance_list dtypes); [|done].
  destruct (length (seq_of columns) <? length (as_list dtypes))%nat; [|done].
  by intros [= <-].
Qed.

Lemma current_columns_of_raises has_header projection columns new_columns dtypes e :
  current_columns_of has_header projection columns new_columns dtypes = Raise e →
  e = ValueError msg_more_new_columns.
Proof.
  unfold current_columns_of.
  destruct (truthy columns); cbn [andb].
  { destruct (length (seq_of columns) <? length new_columns)%nat; [|done].
    by intros [= <-]. }
  destruct has_header; cbn [negb].
  - destruct (length dtypes <=? length new_columns)%nat; [|done].
    by destruct (_ =? _)%nat.
  - by destruct (truthy projection).
Qed.

Lemma dtypes_with_new_columns_raises has_header projection columns new_columns dtypes e :
  dtypes_with_new_columns has_header projection columns new_columns dtypes = Raise e →
  e = ValueError msg_more_new_columns.
Proof.
  unfold dtypes_with_new_columns.
  destruct (truthy new_columns && dtypes_truthy dtypes && isinstance_dict dtypes);
    [|done].
  destruct (current_columns_of _ _ _ _ _) as [[current dtypes']|e'] eqn:Hcurrent.
  - cbn [mbind result_bind]. by destruct (truthy current && isinstance_dict dtypes').
  - intros [= <-]. by eapply current_columns_of_raises.
Qed.

(** Without selected names the block of lines 298-357 raises nothing. *)
Lemma dtypes_with_new_columns_no_names has_header projection columns new_columns dtypes :
  truthy columns = false →
  succeeds (dtypes_with_new_columns has_header projection columns new_columns dtypes).
Proof.
  intros Hcolumns. unfold succeeds, dtypes_with_new_columns.
  destruct (truthy new_columns && dtypes_truthy dtypes && isinstance_dict dtypes);
    [|by eexists].
  destruct (current_columns_of _ _ _ _ _) as [[current dtypes']|e'] eqn:Hcurrent.
  - cbn [mbind result_bind].
    destruct (truthy current && isinstance_dict dtypes'); by eexists.
  - unfold current_columns_of in Hcurrent. rewrite Hcolumns in Hcurrent.
    cbn [andb] in Hcurrent. destruct has_header; cbn [negb] in Hcurrent.
    + destruct (length _ <=? length _)%nat; [|done].
      by destruct (_ =? _)%nat.
    + by destruct (truthy projection).
Qed.

Lemma native_steps_raise has_header projection columns new_columns dtypes e :
  ((if truthy columns && negb has_header
    then check_autogenerated (seq_of columns) else Ok ());;
   dtypes ← dtypes_with_projection projection dtypes;
   dtypes ← dtypes_with_columns columns dtypes;
   dtypes ← dtypes_with_new_columns has_header projection columns new_columns dtypes;
   Ok (NativeReader (columns_or_projection projection columns) dtypes)) = Raise e →
  reconciliation_error e.
Proof.
  unfold reconciliation_error.
  destruct (if truthy columns && negb has_header
            then check_autogenerated (seq_of columns) else Ok ()) as [[]|e0] eqn:Hcheck.
  2:{ intros [= <-]. left. destruct (truthy columns && negb has_header); [|done].
      destruct (check_autogenerated_cases (seq_of columns)); congruence. }
  cbn [mbind result_bind].
  destruct (dtypes_with_projection projection dtypes) as [dtypes1|e1] eqn:H1.
  2:{ intros [= <-]. apply dtypes_with_projection_raises in H1 as [->| ->]; auto. }
  cbn [mbind result_bind].
  destruct (dtypes_with_columns columns dtypes1) as [dtypes2|e2] eqn:H2.
  2:{ intros [= <-]. apply dtypes_with_columns_raises in H2 as ->. auto. }
  cbn [mbind result_bind].
  destruct (dtypes_with_new_columns _ _ _ _ dtypes2) as [dtypes3|e3] eqn:H3; [done|].
  intros [= <-]. apply dtypes_with_new_columns_raises in H3 as ->. auto.
Qed.

(** X1. Once [handle_projection_columns] has returned, and unless
    [read_csv] enters its pyarrow branch, an exception raised by the
    reconciliation of [read_csv] (lines 195-201 and 271-357) or of
    [read_csv_batched] (lines 573-665) is one of the three [ValueError]s
    written there or the [IndexError] of the list assignment of line
    283; in particular [max(projection)] never fails on an empty
    projection. *)
Theorem reconciliation_raises_only
    pyarrow_eligible has_header projection columns new_columns dtypes e :
  (pyarrow_eligible && bool_decide (dtypes = DtNone) = false
   ∧ read_csv pyarrow_eligible has_header projection columns new_columns dtypes
     = Raise e)
  ∨ read_csv_batched has_header projection columns new_columns dtypes = Raise e →
  reconciliation_error e.
Proof.
  intros [[Hnative Hraise]|Hraise].
  - unfold read_csv in Hraise. rewrite Hnative in Hraise.
    by eapply native_steps_raise.
  - rewrite <- native_steps_batched in Hraise. by eapply native_steps_raise.
Qed.

Lemma reconciliation_raises_only_witness :
  reconciliation_error (IndexError msg_index).
Proof.
  apply (reconciliation_raises_only false true (Some [-1]) None None (DtList [Int64])).
  left. split; reflexivity.
Defined.

Lemma of_pairs_nonempty {V} (pairs : list (string * V)) :
  pairs ≠ [] → PyDict.of_pairs pairs ≠ [].
Proof.
  destruct pairs as [|[k v] pairs _] using rev_ind; [done|]. intros _.
  rewrite of_pairs_snoc. destruct (PyDict.of_pairs pairs) as [|[k' v'] d]; simpl; [done|].
  by case_decide.
Qed.

Lemma zip_nonempty {A B} (l : list A) (k : list B) : l ≠ [] → k ≠ [] → zip l k ≠ [].
Proof. by destruct l, k. Qed.

Lemma succeeds_Ok {A} (a : A) : succeeds (Ok a).
Proof. by exists a. Qed.

Lemma not_succeeds_Raise {A} (e : exception) : ¬ succeeds (@Raise A e).
Proof. by intros [a ?]. Qed.

(** X2. Without a selection (no projection, no names) nothing is raised,
    whatever [has_header], [new_columns] and [dtypes] are, and a list of
    dtypes is handed to the reader as it is, with or without a rename
    list. *)
Theorem no_selection_never_raises
    pyarrow_eligible has_header projection columns new_columns dtypes :
  truthy projection = false →
  truthy columns = false →
  succeeds (read_csv pyarrow_eligible has_header projection columns new_columns dtypes)
  ∧ (isinstance_list dtypes = true →
     read_csv pyarrow_eligible has_header projection columns new_columns dtypes
     = Ok (NativeReader (ByIndex projection) dtypes)).
Proof.
  intros Hprojection Hcolumns. unfold read_csv. rewrite Hcolumns. cbn [andb mbind result_bind].
  destruct (pyarrow_eligible && bool_decide (dtypes = DtNone)) eqn:Hpyarrow.
  { split; [apply succeeds_Ok|]. intros Hlist.
    apply andb_true_iff in Hpyarrow as [_ Hnone%bool_decide_eq_true]. by subst. }
  rewrite dtypes_with_projection_skip by auto. cbn [mbind result_bind].
  rewrite dtypes_with_columns_skip by auto. cbn [mbind result_bind].
  unfold columns_or_projection. rewrite Hcolumns. split.
  - destruct (dtypes_with_new_columns_no_names has_header projection columns
                new_columns dtypes Hcolumns) as [dtypes' ->].
    apply succeeds_Ok.
  - intros Hlist. rewrite dtypes_with_new_columns_skip; [done|].
    right; right. by destruct dtypes.
Qed.

Lemma no_selection_never_raises_witness :
  succeeds (read_csv false true None (Some []) (Some ["x"]) (DtList [Int64; Utf8]))
  ∧ (isinstance_list (DtList [Int64; Utf8]) = true →
     read_csv false true None (Some []) (Some ["x"]) (DtList [Int64; Utf8])
     = Ok (NativeReader (ByIndex None) (DtList [Int64; Utf8]))).
Proof. apply no_selection_never_raises; reflexivity. Defined.

(** X3. With a projection by distinct non-negative indices the only
    failure is the length check of line 272: the call goes through
    exactly when [dtypes] is not a list longer than the projection. A
    dict of dtypes and a rename list of any length raise nothing. *)
Theorem index_selection_succeeds_iff
    pyarrow_eligible has_header projection new_columns dtypes :
  projection ≠ [] →
  NoDup projection →
  Forall (λ column_idx, 0 ≤ column_idx) projection →
  succeeds (read_csv pyarrow_eligible has_header (Some projection) None new_columns dtypes)
  ↔ (isinstance_list dtypes = true → (length (as_list dtypes) ≤ length projection)%nat).
Proof.
  intros Hprojection _ Hpos. unfold read_csv. cbn [truthy andb mbind result_bind].
  destruct (pyarrow_eligible && bool_decide (dtypes = DtNone)) eqn:Hpyarrow.
  { split; [|intros _; apply succeeds_Ok]. intros _ Hlist.
    apply andb_true_iff in Hpyarrow as [_ Hnone%bool_decide_eq_true]. by subst. }
  assert (∀ dtypes',
    succeeds (dtypes ← dtypes_with_columns None dtypes';
              dtypes ← dtypes_with_new_columns has_header (Some projection) None
                         new_columns dtypes;
              Ok (NativeReader (columns_or_projection (Some projection) None) dtypes)))
    as Hrest.
  { intros dtypes'. rewrite dtypes_with_columns_skip by auto. cbn [mbind result_bind].
    destruct (dtypes_with_new_columns_no_names has_header (Some projection) None
                new_columns dtypes' eq_refl) as [dtypes'' ->].
    apply succeeds_Ok. }
  unfold dtypes_with_projection. rewrite truthy_nonempty by done. cbn [andb seq_of].
  destruct (dtypes_truthy dtypes && isinstance_list dtypes) eqn:Hguard.
  2:{ split; [|intros _; apply Hrest]. intros _ Hlist.
      rewrite Hlist, andb_true_r in Hguard. destruct dtypes as [|l|d]; try done.
      simpl in *. apply bool_decide_eq_false in Hguard.
      destruct l; [simpl; lia | by destruct Hguard]. }
  apply andb_true_iff in Hguard as [_ Hlist].
  destruct (Nat.ltb_spec (length projection) (length (as_list dtypes))) as [Hlen|Hlen].
  { split; [by intros ?%not_succeeds_Raise | intros Hle; specialize (Hle Hlist); lia]. }
  split; [done|]. intros _.
  destruct projection as [|x xs]; [done|]. cbn [PyList.max mbind result_bind].
  pose proof (is_max_foldr x xs) as [Hin Hle]. set (m := foldr Z.max x xs) in *.
  destruct (fill_dtypes_list_in_range (x :: xs) 0 (as_list dtypes)
              (PyList.repeat Utf8 (m + 1))) as (filled & -> & _).
  { unfold PyList.repeat. rewrite length_replicate. apply Forall_forall. intros i Hi.
    specialize (Hle i Hi). rewrite Forall_forall in Hpos.
    pose proof (Hpos i Hi). pose proof (Hpos m Hin). simpl in *. lia. }
  apply Hrest.
Qed.

Lemma index_selection_succeeds_iff_witness :
  succeeds (read_csv false false (Some [2; 5; 0]) None (Some ["x"; "y"; "z"; "w"])
              (DtList [Int64; Date]))
  ↔ (isinstance_list (DtList [Int64; Date]) = true →
     (length (as_list (DtList [Int64; Date])) ≤ length [2; 5; 0])%nat).
Proof.
  apply index_selection_succeeds_iff; [done | decide_closed | decide_closed].
Defined.

Lemma rename_block_names_iff has_header projection columns new_columns dtypes :
  columns ≠ [] → dtypes ≠ [] →
  succeeds (dtypes_with_new_columns has_header projection (Some columns) new_columns
              (DtDict dtypes))
  ↔ (length (seq_of new_columns) ≤ length columns)%nat.
Proof.
  intros Hcolumns Hdtypes.
  destruct (truthy new_columns) eqn:Htruthy.
  2:{ rewrite dtypes_with_new_columns_skip by auto.
      split; [|intros _; apply succeeds_Ok]. intros _.
      destruct new_columns as [[|??]|]; simpl in *; (done || lia). }
  destruct new_columns as [new_columns|]; [|done]. cbn [seq_of].
  assert (new_columns ≠ []) as Hnew by (by destruct new_columns).
  destruct (Nat.lt_ge_cases (length columns) (length new_columns)) as [Hlen|Hlen].
  - rewrite rename_list_too_long by done.
    split; [by intros ?%not_succeeds_Raise | lia].
  - split; [done|]. intros _.
    rewrite (dtypes_with_new_columns_known _ _ _ _ _ (take (length new_columns) columns));
      [apply succeeds_Ok | done |].
    intros _ _. split.
    + apply nonempty_length. rewrite length_take.
      apply nonempty_length in Hnew, Hcolumns. lia.
    + unfold current_columns_of. rewrite truthy_nonempty by done. cbn [seq_of].
      by destruct (Nat.ltb_spec (length columns) (length new_columns)); [lia|].
Qed.

(** X4. With a (non-empty) selection by distinct names, and unless
    [read_csv] enters its pyarrow branch on a source without header, the
    call goes through exactly when three conditions hold: with
    [has_header=False] every name starts with [column_]; a list of dtypes
    is not longer than the selection; and, if [dtypes] is a non-empty
    list or dict, the rename list is not longer than the selection. *)
Theorem names_selection_succeeds_iff
    pyarrow_eligible has_header columns new_columns dtypes :
  columns ≠ [] →
  NoDup columns →
  pyarrow_eligible = false ∨ dtypes ≠ DtNone ∨ has_header = true →
  succeeds (read_csv pyarrow_eligible has_header None (Some columns) new_columns dtypes)
  ↔ passes_header_check has_header columns
    ∧ (isinstance_list dtypes = true → (length (as_list dtypes) ≤ length columns)%nat)
    ∧ (dtypes_truthy dtypes = true →
       (length (seq_of new_columns) ≤ length columns)%nat).
Proof.
  intros Hcolumns _ _. unfold read_csv. cbn [seq_of].
  pose proof (header_check_ok has_header columns Hcolumns) as Hheader.
  destruct (if truthy (Some columns) && negb has_header
            then check_autogenerated columns else Ok ()) as [[]|e0].
  2:{ cbn [mbind result_bind]. split; [by intros ?%not_succeeds_Raise|].
      intros [Hpass _]. by apply Hheader in Hpass. }
  assert (passes_header_check has_header columns) as Hpass by (by apply Hheader).
  cbn [mbind result_bind].
  destruct (pyarrow_eligible && bool_decide (dtypes = DtNone)) eqn:Hpyarrow.
  { apply andb_true_iff in Hpyarrow as [_ ->%bool_decide_eq_true].
    split; [done|]. intros _. apply succeeds_Ok. }
  clear Hpyarrow Hheader.
  rewrite dtypes_with_projection_skip by auto. cbn [mbind result_bind].
  assert (∀ dict, dict ≠ [] →
    succeeds (dtypes ← dtypes_with_new_columns has_header None (Some columns)
                         new_columns (DtDict dict);
              Ok (NativeReader (columns_or_projection None (Some columns)) dtypes))
    ↔ (length (seq_of new_columns) ≤ length columns)%nat) as Hrename.
  { intros dict Hdict. rewrite <- (rename_block_names_iff has_header None) by done.
    destruct (dtypes_with_new_columns _ _ _ _ _) as [dtypes'|e'];
      cbn [mbind result_bind].
    - split; intros _; apply succeeds_Ok.
    - split; by intros ?%not_succeeds_Raise. }
  destruct dtypes as [|l|d].
  - rewrite dtypes_with_columns_skip by auto. cbn [mbind result_bind].
    rewrite dtypes_with_new_columns_skip by auto. cbn [mbind result_bind].
    split; [done|]. intros _. apply succeeds_Ok.
  - destruct (decide (l = [])) as [->|Hl].
    { assert (dtypes_with_columns (Some columns) (DtList []) = Ok (DtList [])) as ->.
      { unfold dtypes_with_columns. by rewrite truthy_nonempty. }
      cbn [mbind result_bind]. rewrite dtypes_with_new_columns_skip by auto.
      split; [|intros _; apply succeeds_Ok]. intros _.
      split_and!; [done | simpl; lia | done]. }
    unfold dtypes_with_columns. rewrite truthy_nonempty by done.
    cbn [dtypes_truthy isinstance_list as_list seq_of].
    rewrite bool_decide_eq_true_2 by done. cbn [andb].
    destruct (Nat.ltb_spec (length columns) (length l)) as [Hlen|Hlen];
      cbn [mbind result_bind].
    + split; [by intros ?%not_succeeds_Raise|]. intros (_ & Hle & _).
      specialize (Hle eq_refl). lia.
    + rewrite Hrename by (by apply of_pairs_nonempty, zip_nonempty).
      split; [by auto|]. intros (_ & _ & Hle). apply Hle. done.
  - rewrite dtypes_with_columns_skip by auto. cbn [mbind result_bind].
    destruct (decide (d = [])) as [->|Hd].
    { rewrite dtypes_with_new_columns_skip by auto.
      split; [|intros _; apply succeeds_Ok]. intros _. by split_and!. }
    rewrite Hrename by done. cbn [dtypes_truthy isinstance_list].
    rewrite bool_decide_eq_true_2 by done.
    split; [by auto|]. intros (_ & _ & Hle). by apply Hle.
Qed.

Lemma names_selection_succeeds_iff_witness :
  succeeds (read_csv false false None (Some ["column_3"; "column_1"])
              (Some ["x"; "y"; "z"]) (DtList [Int64]))
  ↔ passes_header_check false ["column_3"; "column_1"]
    ∧ (isinstance_list (DtList [Int64]) = true →
       (length (as_list (DtList [Int64])) ≤ length ["column_3"; "column_1"])%nat)
    ∧ (dtypes_truthy (DtList [Int64]) = true →
       (length (seq_of (Some ["x"; "y"; "z"])) ≤ length ["column_3"; "column_1"])%nat).
Proof.
  apply names_selection_succeeds_iff; [done | decide_closed | by left].
Defined.

Lemma setitem_nil {A} (i : Z) (v : A) :
  PyList.setitem [] i v = Raise (IndexError msg_index).
Proof.
  unfold PyList.setitem. rewrite !bool_decide_eq_false_2 by (simpl; lia). done.
Qed.

(** A projection that consists of negative indices only, together
    with a non-empty list of dtypes that is not longer, makes the list
    assignment of line 283 raise [IndexError]: the list of placeholders is
    empty. *)
Theorem negative_projection_raises
    pyarrow_eligible has_header projection new_columns override :
  Forall (λ column_idx, column_idx < 0) projection →
  override ≠ [] →
  (length override ≤ length projection)%nat →
  read_csv pyarrow_eligible has_header (Some projection) None new_columns
    (DtList override)
  = Raise (IndexError msg_index).
Proof.
  intros Hneg Hoverride Hlen. rewrite read_csv_with_dtypes by done.
  cbn [truthy andb mbind result_bind].
  assert (projection ≠ []) as Hprojection.
  { apply nonempty_length. apply nonempty_length in Hoverride. lia. }
  unfold dtypes_with_projection. rewrite truthy_nonempty by done.
  cbn [dtypes_truthy isinstance_list as_list seq_of].
  rewrite bool_decide_eq_true_2 by done. cbn [andb].
  destruct (Nat.ltb_spec (length projection) (length override)); [lia|].
  destruct projection as [|x xs]; [done|]. cbn [PyList.max mbind result_bind].
  pose proof (is_max_foldr x xs) as [Hin _]. set (m := foldr Z.max x xs) in *.
  eapply Forall_forall in Hneg; [|exact Hin]. simpl in Hneg.
  unfold PyList.repeat. replace (Z.to_nat (m + 1)) with 0%nat by lia.
  destruct override as [|dtype override]; [done|].
  cbn [replicate fill_dtypes_list lookup list_lookup]. by rewrite setitem_nil.
Qed.

Lemma negative_projection_raises_witness :
  read_csv false true (Some [-1; -3]) None None (DtList [Int64])
  = Raise (IndexError msg_index).
Proof.
  apply negative_projection_raises; [decide_closed | done | simpl; lia].
Defined.

(** X6. With a selection by name, a non-empty list of dtypes that is not
    longer than the selection is treated in every respect as the dict
    [dict(zip(columns, dtypes))]: same result, same exceptions, for
    every [has_header] and every rename list. *)
Theorem list_dtypes_as_dict pyarrow_eligible has_header columns new_columns override :
  override ≠ [] →
  (length override ≤ length columns)%nat →
  read_csv pyarrow_eligible has_header None (Some columns) new_columns (DtList override)
  = read_csv pyarrow_eligible has_header None (Some columns) new_columns
      (DtDict (PyDict.of_pairs (zip columns override))).
Proof.
  intros Hoverride Hlen. rewrite !read_csv_with_dtypes by done.
  assert (columns ≠ []) as Hcolumns.
  { apply nonempty_length. apply nonempty_length in Hoverride. lia. }
  apply result_bind_eq; [done|]. intros _.
  rewrite !dtypes_with_projection_skip by auto. cbn [mbind result_bind].
  rewrite (dtypes_with_columns_skip _ (DtDict _)) by auto.
  unfold dtypes_with_columns. rewrite truthy_nonempty by done.
  cbn [dtypes_truthy isinstance_list as_list seq_of].
  rewrite bool_decide_eq_true_2 by done. cbn [andb].
  by destruct (Nat.ltb_spec (length columns) (length override)); [lia|].
Qed.

Lemma list_dtypes_as_dict_witness :
  read_csv false true None (Some ["a"; "b"]) (Some ["b"; "a"]) (DtList [Int64; Utf8])
  = read_csv false true None (Some ["a"; "b"]) (Some ["b"; "a"])
      (DtDict (PyDict.of_pairs (zip ["a"; "b"] [Int64; Utf8]))).
Proof. apply list_dtypes_as_dict; [done | simpl; lia]. Defined.

(** ** No dtype is lost in the rename *)

Lemma renames_back_paired new_columns current_columns rename name :
  renames_back new_columns current_columns rename →
  name ∈ take (length current_columns) new_columns →
  ∃ i, new_columns !! i = Some name ∧ current_columns !! i = Some (rename name).
Proof.
  intros Hrename Hname. destruct (Hrename name) as [[Hnone _]|(i & Hi & Hcur & _)]; [|eauto].
  apply list_elem_of_lookup in Hname as [i Hi].
  apply lookup_take_Some in Hi as [Hi Hlt]. by destruct (Hnone i).
Qed.

(** With distinct current names, and every key among the new names that
    have a current name, the rewritten keys are distinct: the dict
    comprehension of lines 354-357 merges nothing. *)
Lemma rename_dtypes_distinct new_columns current_columns dtypes :
  NoDup current_columns → PyDict.wf dtypes →
  PyDict.keys dtypes ⊆ take (length current_columns) new_columns →
  ∃ rename,
    renames_back new_columns current_columns rename
    ∧ rename_dtypes new_columns current_columns dtypes
      = (λ item, (rename item.1, item.2)) <$> dtypes
    ∧ PyDict.wf ((λ item, (rename item.1, item.2)) <$> dtypes).
Proof.
  intros Hcurrent Hwf Hkeys.
  destruct (rename_dtypes_rekeyed new_columns current_columns dtypes)
    as (rename & Hrename & Heq).
  exists rename. split; [done|].
  assert (PyDict.wf ((λ item, (rename item.1, item.2)) <$> dtypes)) as Hwf'.
  { unfold PyDict.wf, PyDict.keys in *. rewrite <- list_fmap_compose.
    change (NoDup ((rename ∘ fst) <$> dtypes)). rewrite list_fmap_compose.
    apply NoDup_fmap_2_strong; [|done]. intros k1 k2 Hk1 Hk2 Heq'.
    destruct (renames_back_paired _ _ _ k1 Hrename (Hkeys _ Hk1)) as (i & Hi & Hci).
    destruct (renames_back_paired _ _ _ k2 Hrename (Hkeys _ Hk2)) as (j & Hj & Hcj).
    rewrite Heq' in Hci.
    assert (i = j) as -> by (by apply (NoDup_lookup current_columns i j (rename k2))).
    congruence. }
  split; [|done]. rewrite Heq. unfold rekeyed. by apply of_pairs_wf.
Qed.

(** X7. With a selection by distinct names, a rename list that is not
    longer than the selection and a dict of dtypes whose keys are all new
    names, no dtype is lost or merged: the dict handed to the reader has
    the same dtypes in the same order, each under the selected name that
    stands at the position of its key. *)
Theorem renamed_dtypes_all_kept pyarrow_eligible has_header columns new_columns dtypes :
  passes_header_check has_header columns →
  NoDup columns →
  PyDict.wf dtypes →
  (length new_columns ≤ length columns)%nat →
  PyDict.keys dtypes ⊆ new_columns →
  ∃ rename,
    renames_back new_columns columns rename
    ∧ read_csv pyarrow_eligible has_header None (Some columns) (Some new_columns)
        (DtDict dtypes)
      = Ok (NativeReader (columns_or_projection None (Some columns))
              (DtDict ((λ item, (rename item.1, item.2)) <$> dtypes))).
Proof.
  intros Hcheck Hcolumns Hwf Hlen Hkeys.
  destruct (rename_dtypes_distinct new_columns columns dtypes)
    as (rename & Hrename & Heq & _); [done..| |].
  { by rewrite take_ge by lia. }
  exists rename. split; [done|].
  rewrite read_csv_dict by done.
  rewrite (dtypes_with_new_columns_known _ _ _ _ _ (take (length new_columns) columns)).
  - cbn [mbind result_bind]. by rewrite rename_dtypes_take, Heq.
  - done.
  - intros Hnew Hdtypes.
    assert (columns ≠ []) as Hne.
    { apply nonempty_length. apply nonempty_length in Hnew. lia. }
    split.
    + apply nonempty_length. rewrite length_take.
      apply nonempty_length in Hnew, Hne. lia.
    + unfold current_columns_of. rewrite truthy_nonempty by done. cbn [seq_of].
      by destruct (Nat.ltb_spec (length columns) (length new_columns)); [lia|].
Qed.

Lemma renamed_dtypes_all_kept_witness :
  ∃ rename,
    renames_back ["x"; "y"] ["a"; "b"; "c"] rename
    ∧ read_csv false true None (Some ["a"; "b"; "c"]) (Some ["x"; "y"])
        (DtDict [("y", Date); ("x", Int64)])
      = Ok (NativeReader (columns_or_projection None (Some ["a"; "b"; "c"]))
              (DtDict ((λ item, (rename item.1, item.2))
                         <$> [("y", Date); ("x", Int64)]))).
Proof.
  apply renamed_dtypes_all_kept;
    [done | decide_closed | decide_closed | simpl; lia | decide_closed].
Defined.

(** X8. The rewrite of lines 352-357 can be undone: with as many
    distinct new names as distinct current names and all keys among the
    new names, rewriting the keys from new to current names and then from
    current to new names gives the dict back. *)
Theorem rename_dtypes_round_trip new_columns current_columns dtypes :
  NoDup new_columns →
  NoDup current_columns →
  length new_columns = length current_columns →
  PyDict.wf dtypes →
  PyDict.keys dtypes ⊆ new_columns →
  rename_dtypes current_columns new_columns
    (rename_dtypes new_columns current_columns dtypes)
  = dtypes.
Proof.
  intros Hnew Hcurrent Hlen Hwf Hkeys.
  destruct (rename_dtypes_distinct new_columns current_columns dtypes)
    as (there & Hthere & -> & Hwf'); [done..| |].
  { by rewrite take_ge by lia. }
  assert (∀ name, name ∈ PyDict.keys dtypes →
            ∃ i, new_columns !! i = Some name
                 ∧ current_columns !! i = Some (there name)) as Hpaired.
  { intros name Hname. eapply renames_back_paired; [done|].
    rewrite take_ge by lia. by apply Hkeys. }
  destruct (rename_dtypes_distinct current_columns new_columns
              ((λ item, (there item.1, item.2)) <$> dtypes))
    as (back & Hback & -> & _); [done..| |].
  { intros name Hname. unfold PyDict.keys in Hname.
    rewrite <- list_fmap_compose in Hname.
    apply list_elem_of_fmap in Hname as ([k v] & -> & Hitem). simpl.
    destruct (Hpaired k) as (i & _ & Hi).
    { apply list_elem_of_fmap. by exists (k, v). }
    rewrite take_ge by lia. by eapply list_elem_of_lookup_2. }
  rewrite <- list_fmap_compose. rewrite <- (list_fmap_id dtypes) at 2.
  apply list_fmap_ext. intros n [k v] Hn. simpl. f_equal.
  destruct (Hpaired k) as (i & Hi & Hci).
  { apply list_elem_of_fmap. exists (k, v). split; [done|].
    by eapply list_elem_of_lookup_2. }
  destruct (renames_back_paired _ _ _ (there k) Hback) as (j & Hj & Hnj).
  { rewrite take_ge by lia. by eapply list_elem_of_lookup_2. }
  assert (i = j) as <- by (by apply (NoDup_lookup current_columns i j (there k))).
  congruence.
Qed.

Lemma rename_dtypes_round_trip_witness :
  rename_dtypes ["a"; "b"] ["x"; "y"]
    (rename_dtypes ["x"; "y"] ["a"; "b"] [("y", Date); ("x", Int64)])
  = [("y", Date); ("x", Int64)].
Proof.
  apply rename_dtypes_round_trip;
    [decide_closed | decide_closed | done | decide_closed | decide_closed].
Defined.

(** ** The names of the pyarrow branch *)

Lemma digit_value_pretty_N_char x :
  (x < 10)%N → digit_value (pretty_N_char x) = Some (Z.of_N x).
Proof.
  intros Hx. destruct x as [|p]; [done|].
  do 4 (try destruct p as [p|p|]); (done || lia).
Qed.

Lemma decimal_go_pretty_N_go x : ∀ acc s,
  ∃ k, 0 ≤ k
    ∧ decimal_go acc (pretty_N_go x s) = decimal_go (acc * 10 ^ k + Z.of_N x) s.
Proof.
  induction (N.lt_wf_0 x) as [x _ IH]; intros acc s.
  destruct (decide (x = 0)%N) as [->|Hx].
  { exists 0. split; [done|]. rewrite pretty_N_go_0. f_equal. simpl. lia. }
  rewrite pretty_N_go_step by lia.
  destruct (IH (x `div` 10)%N) with (acc := acc)
    (s := String (pretty_N_char (x `mod` 10)) s) as (k & Hk & ->).
  { apply N.div_lt; lia. }
  exists (Z.succ k). split; [lia|]. cbn [decimal_go].
  rewrite digit_value_pretty_N_char by (apply N.mod_lt; lia).
  f_equal. rewrite Z.pow_succ_r by done.
  rewrite N2Z.inj_div, N2Z.inj_mod. simpl (Z.of_N 10).
  pose proof (Z.div_mod (Z.of_N x) 10). lia.
Qed.

(** The reader of decimal numerals reads every numeral back. *)
Lemma decimal_int_reads : reads_decimal decimal_int.
Proof.
  intros [|p|p] Hn; [done| |lia].
  change (pretty (Z.pos p)) with (pretty_N_go (N.pos p) EmptyString).
  destruct (pretty_N_go_leading (N.pos p) EmptyString) as (c & rest & Hgo & _); [lia|].
  destruct (decimal_go_pretty_N_go (N.pos p) 0 EmptyString) as (k & _ & Hread).
  unfold decimal_int. rewrite Hgo in *. rewrite Hread. simpl. done.
Qed.

Section pyarrow_facts.
Context (int : string → result Z) (Hint : reads_decimal int).

Lemma pyarrow_names_of_generated ns :
  Forall (λ n, 1 ≤ n) ns →
  pyarrow_names_of_columns int (column_name <$> ns)
  = Ok ((λ n, pyarrow_name (n - 1)) <$> ns).
Proof.
  induction 1 as [|n ns Hn _ IH]; [done|].
  rewrite !fmap_cons. cbn [pyarrow_names_of_columns].
  change (str_drop 7 (column_name n)) with (pretty n).
  rewrite Hint by lia. cbn [mbind result_bind]. by rewrite IH.
Qed.

Lemma generated_names_of_pyarrow_names ks :
  Forall (λ k, 0 ≤ k) ks →
  generated_names_of_pyarrow int (pyarrow_name <$> ks)
  = Ok ((λ k, column_name (k + 1)) <$> ks).
Proof.
  induction 1 as [|k ks Hk _ IH]; [done|].
  rewrite !fmap_cons. cbn [generated_names_of_pyarrow].
  change (str_drop 1 (pyarrow_name k)) with (pretty k).
  rewrite Hint by done. cbn [mbind result_bind]. by rewrite IH.
Qed.

End pyarrow_facts.

(** X9. On a source without header the two conversions of the pyarrow
    branch are inverse on generated names: the selected names
    [column_n] ([n >= 1]) become pyarrow's [f<n-1>] (line 216), and line
    263 turns these back into the selected names. *)
Theorem pyarrow_names_round_trip int projection ns :
  reads_decimal int →
  ns ≠ [] →
  Forall (λ n, 1 ≤ n) ns →
  include_columns int false projection (Some (column_name <$> ns))
  = Ok (Some ((λ n, pyarrow_name (n - 1)) <$> ns))
  ∧ rename_pyarrow_columns int false ((λ n, pyarrow_name (n - 1)) <$> ns)
    = Ok (column_name <$> ns).
Proof.
  intros Hint Hns Hpos. split.
  - unfold include_columns.
    rewrite truthy_nonempty by (by destruct ns). cbn [negb andb seq_of].
    by rewrite pyarrow_names_of_generated.
  - unfold rename_pyarrow_columns. cbn [negb].
    rewrite (list_fmap_compose (λ n, n - 1) pyarrow_name).
    rewrite generated_names_of_pyarrow_names; [|done|].
    + rewrite <- list_fmap_compose. f_equal. apply list_fmap_ext.
      intros i n _. simpl. f_equal. lia.
    + apply Forall_fmap. eapply Forall_impl; [done|]. simpl. lia.
Qed.

Lemma pyarrow_names_round_trip_witness :
  include_columns decimal_int false None (Some (column_name <$> [3; 1; 12]))
  = Ok (Some ((λ n, pyarrow_name (n - 1)) <$> [3; 1; 12]))
  ∧ rename_pyarrow_columns decimal_int false ((λ n, pyarrow_name (n - 1)) <$> [3; 1; 12])
    = Ok (column_name <$> [3; 1; 12]).
Proof.
  apply pyarrow_names_round_trip; [apply decimal_int_reads | done | decide_closed].
Defined.



(** ** [scan_csv] and the new column names *)

Lemma with_new_columns_prefix new_columns cols :
  ∃ rest, with_new_columns new_columns cols = new_columns ++ rest
          ∧ rest = drop (length new_columns) cols.
Proof.
  unfold with_new_columns.
  destruct (Nat.ltb_spec (length new_columns) (length cols)) as [Hlt|Hge].
  - by eexists.
  - exists []. rewrite drop_ge by done. by rewrite app_nil_r.
Qed.

(** X11. With a rename list and no [with_column_names], [scan_csv]
    hands the reader a callable that, whatever the width of the file,
    returns [max(len(new_columns), len(cols))] names: the new names
    first, then the names of [cols] from position [len(new_columns)] on
    unchanged; applying it twice is applying it once. A rename list
    longer than the file's columns is returned whole. *)
Theorem scan_csv_callable new_columns dtypes :
  new_columns ≠ [] →
  ∃ dtypes' f,
    scan_csv (Some new_columns) None dtypes = inr (LazyScan dtypes' (Some f))
    ∧ ∀ cols,
        length (f cols) = Nat.max (length new_columns) (length cols)
        ∧ take (length new_columns) (f cols) = new_columns
        ∧ drop (length new_columns) (f cols) = drop (length new_columns) cols
        ∧ f (f cols) = f cols.
Proof.
  intros Hnew. unfold scan_csv. rewrite truthy_nonempty by done. cbn [negb andb seq_of].
  eexists _, _. split; [done|]. intros cols.
  destruct (with_new_columns_prefix new_columns cols) as (rest & Hf & Hrest).
  assert (length (with_new_columns new_columns cols)
          = Nat.max (length new_columns) (length cols)) as Hlen.
  { rewrite Hf, length_app, Hrest, length_drop. lia. }
  split_and!.
  - done.
  - rewrite Hf. by rewrite take_app_length.
  - rewrite Hf. by rewrite drop_app_length.
  - destruct (with_new_columns_prefix new_columns (with_new_columns new_columns cols))
      as (rest' & -> & ->).
    rewrite Hf at 1. by rewrite drop_app_length.
Qed.

Lemma scan_csv_callable_witness :
  ∃ dtypes' f,
    scan_csv (Some ["x"; "y"]) None (DtDict [("x", Int64)])
    = inr (LazyScan dtypes' (Some f))
    ∧ ∀ cols,
        length (f cols) = Nat.max (length ["x"; "y"]) (length cols)
        ∧ take (length ["x"; "y"]) (f cols) = ["x"; "y"]
        ∧ drop (length ["x"; "y"]) (f cols) = drop (length ["x"; "y"]) cols
        ∧ f (f cols) = f cols.
Proof. by apply scan_csv_callable. Defined.

(** X12. With distinct new names, [scan_csv] keys a non-empty list of
    dtypes by final name: the dict it hands on has
    [min(len(new_columns), len(dtypes))] entries, dtypes beyond the rename
    list being dropped without an exception, and for every width of the
    file the dtype of position [i] stands under the name the callable
    gives to column [i]. *)
Theorem scan_csv_list_dtypes new_columns override :
  NoDup new_columns →
  new_columns ≠ [] →
  override ≠ [] →
  ∃ dtypes f,
    scan_csv (Some new_columns) None (DtList override)
    = inr (LazyScan (DtDict dtypes) (Some f))
    ∧ length dtypes = Nat.min (length new_columns) (length override)
    ∧ ∀ cols i dtype,
        (i < length new_columns)%nat → override !! i = Some dtype →
        ∃ name, f cols !! i = Some name ∧ PyDict.get name dtypes = Some dtype.
Proof.
  intros Hnodup Hnew Hoverride. unfold scan_csv.
  rewrite truthy_nonempty by done.
  cbn [negb andb seq_of dtypes_truthy isinstance_list as_list].
  rewrite bool_decide_eq_true_2 by done. cbn [andb].
  assert (PyDict.wf (zip new_columns override)) as Hwf.
  { unfold PyDict.wf, PyDict.keys. rewrite fst_zip_take.
    eapply sublist_NoDup; [done | apply sublist_take]. }
  rewrite of_pairs_wf by done.
  eexists _, _. split; [done|]. split; [apply length_zip|].
  intros cols i dtype Hi Hdtype.
  destruct (lookup_lt_is_Some_2 new_columns i Hi) as [name Hname].
  exists name. split.
  - destruct (with_new_columns_prefix new_columns cols) as (rest & -> & _).
    by apply lookup_app_l_Some.
  - apply (get_lookup_wf _ i); [done|]. by apply lookup_zip_Some.
Qed.

Lemma scan_csv_list_dtypes_witness :
  ∃ dtypes f,
    scan_csv (Some ["x"; "y"]) None (DtList [Int64; Date; Utf8])
    = inr (LazyScan (DtDict dtypes) (Some f))
    ∧ length dtypes = Nat.min (length ["x"; "y"]) (length [Int64; Date; Utf8])
    ∧ ∀ cols i dtype,
        (i < length ["x"; "y"])%nat → [Int64; Date; Utf8] !! i = Some dtype →
        ∃ name, f cols !! i = Some name ∧ PyDict.get name dtypes = Some dtype.
Proof. apply scan_csv_list_dtypes; [decide_closed | done | done]. Defined.

(** ** Negative indices in a projection *)

Lemma setitem_cases {A} (l : list A) (i : Z) (v : A) :
  (∃ l', PyList.setitem l i v = Ok l' ∧ length l' = length l
         ∧ - Z.of_nat (length l) ≤ i < Z.of_nat (length l))
  ∨ (PyList.setitem l i v = Raise (IndexError msg_index)
     ∧ ¬ (- Z.of_nat (length l) ≤ i < Z.of_nat (length l))).
Proof.
  unfold PyList.setitem. repeat case_bool_decide.
  - left. eexists. split; [done|]. rewrite length_insert. split; [done | lia].
  - left. eexists. split; [done|]. rewrite length_insert. split; [done | lia].
  - right. split; [done | lia].
Qed.

(** The loop of lines 281-283 either runs through, every index that
    receives a dtype lying within [-len .. len-1], or raises [IndexError]
    at an index outside. *)
Lemma fill_dtypes_list_cases projection : ∀ idx dtypes dtypes_list,
  (∃ filled,
     fill_dtypes_list idx projection dtypes dtypes_list = Ok filled
     ∧ length filled = length dtypes_list
     ∧ ∀ i column_idx,
         projection !! i = Some column_idx → (idx + i < length dtypes)%nat →
         - Z.of_nat (length dtypes_list) ≤ column_idx < Z.of_nat (length dtypes_list))
  ∨ (fill_dtypes_list idx projection dtypes dtypes_list = Raise (IndexError msg_index)
     ∧ ∃ i column_idx,
         projection !! i = Some column_idx ∧ (idx + i < length dtypes)%nat
         ∧ ¬ (- Z.of_nat (length dtypes_list) ≤ column_idx
              < Z.of_nat (length dtypes_list))).
Proof.
  induction projection as [|column_idx rest IH]; intros idx dtypes dtypes_list.
  { left. exists dtypes_list. split_and!; done. }
  cbn [fill_dtypes_list].
  destruct (dtypes !! idx) as [dtype|] eqn:Hdtype.
  - pose proof (lookup_lt_Some _ _ _ Hdtype) as Hidx.
    destruct (setitem_cases dtypes_list column_idx dtype)
      as [(l' & -> & Hlen & Hrange)|[-> Hout]]; cbn [mbind result_bind].
    + destruct (IH (S idx) dtypes l')
        as [(filled & -> & Hfilled & Hall)|(-> & i & c & Hi & Hlt & Hbad)].
      * left. exists filled. split_and!; [done | congruence |].
        intros [|i] c Hc Hlt; simpl in Hc.
        -- by simplify_eq.
        -- rewrite <- Hlen. apply (Hall i); [done | lia].
      * right. split; [done|]. exists (S i), c. rewrite <- Hlen.
        split_and!; [done | lia | done].
    + right. split; [done|]. exists 0%nat, column_idx. split_and!; [done | lia | done].
  - apply lookup_ge_None in Hdtype.
    destruct (IH (S idx) dtypes dtypes_list)
      as [(filled & -> & Hfilled & Hall)|(-> & i & c & Hi & Hlt & Hbad)].
    + left. exists filled. split_and!; [done..|].
      intros [|i] c Hc Hlt; [lia|]. apply (Hall i); [done | lia].
    + right. split; [done|]. exists (S i), c. split_and!; [done | lia | done].
Qed.

Lemma setitem_Ok {A} (l l' : list A) (i : Z) (v : A) :
  PyList.setitem l i v = Ok l' →
  l' = <[list_position (length l) i := v]> l
  ∧ (list_position (length l) i < length l)%nat.
Proof.
  unfold PyList.setitem, list_position.
  repeat case_bool_decide; try done; try lia; intros [= <-]; (split; [done | lia]).
Qed.

(** After the loop of lines 281-283 every position holds the dtype of
    the last index that addresses it, or what it held before. *)
Lemma fill_dtypes_list_positions projection : ∀ idx dtypes dtypes_list filled,
  fill_dtypes_list idx projection dtypes dtypes_list = Ok filled →
  ∀ j, (j < length dtypes_list)%nat →
    (∃ i column_idx dtype,
        projection !! i = Some column_idx ∧ dtypes !! (idx + i)%nat = Some dtype
        ∧ list_position (length dtypes_list) column_idx = j
        ∧ (∀ i' column_idx',
             (i < i')%nat → (idx + i' < length dtypes)%nat →
             projection !! i' = Some column_idx' →
             list_position (length dtypes_list) column_idx' ≠ j)
        ∧ filled !! j = Some dtype)
    ∨ ((∀ i column_idx,
          (idx + i < length dtypes)%nat → projection !! i = Some column_idx →
          list_position (length dtypes_list) column_idx ≠ j)
       ∧ filled !! j = dtypes_list !! j).
Proof.
  induction projection as [|c rest IH]; intros idx dtypes dtypes_list filled Hrun j Hj.
  { right. split; [done|]. simpl in Hrun. by simplify_eq. }
  cbn [fill_dtypes_list] in Hrun.
  destruct (dtypes !! idx) as [dtype|] eqn:Hdtype.
  - destruct (PyList.setitem dtypes_list c dtype) as [l'|] eqn:Hset; [|done].
    cbn [mbind result_bind] in Hrun.
    apply setitem_Ok in Hset as [-> Hpos].
    destruct (IH _ _ _ _ Hrun j) as
      [(i & c' & t & Hi & Ht & Hp & Hlast & Hfilled)|[Hnone Hfilled]].
    { by rewrite length_insert. }
    + rewrite length_insert in Hp. left. exists (S i), c', t.
      split_and!; [done | by rewrite <- Nat.add_succ_comm | done | | done].
      intros [|i'] c'' Hlt Hrange Hc''; [lia|].
      specialize (Hlast i' c''). rewrite length_insert in Hlast.
      apply Hlast; [lia | lia | done].
    + destruct (decide (list_position (length dtypes_list) c = j)) as [Hc|Hc].
      * left. exists 0%nat, c, dtype.
        split_and!; [done | by rewrite Nat.add_0_r | done | |].
        -- intros [|i'] c'' Hlt Hrange Hc''; [lia|].
           specialize (Hnone i' c''). rewrite length_insert in Hnone.
           apply Hnone; [lia | done].
        -- rewrite Hfilled, <- Hc. by apply list_lookup_insert_eq.
      * right. split.
        -- intros [|i] c'' Hrange Hc''; simpl in Hc''; [by simplify_eq|].
           specialize (Hnone i c''). rewrite length_insert in Hnone.
           apply Hnone; [lia | done].
        -- rewrite Hfilled. by apply list_lookup_insert_ne.
  - apply lookup_ge_None in Hdtype.
    destruct (IH _ _ _ _ Hrun j Hj) as
      [(i & c' & t & Hi & Ht & Hp & Hlast & Hfilled)|[Hnone Hfilled]].
    + left. exists (S i), c', t.
      split_and!; [done | by rewrite <- Nat.add_succ_comm | done | | done].
      intros [|i'] c'' Hlt Hrange Hc''; [lia|].
      apply (Hlast i' c''); [lia | lia | done].
    + right. split; [|done].
      intros [|i] c'' Hrange Hc''; [lia|]. apply (Hnone i c''); [lia | done].
Qed.

(** X5. With a projection by distinct indices and a non-empty list of
    dtypes that is not longer, [IndexError] is raised exactly when some
    index that receives a dtype lies below [-(max(projection)+1)], or
    below [0] if that is larger. When no index does, nothing is raised,
    and a negative index addresses the flat list of [max(projection)+1]
    entries from its end: every position holds the dtype of the last
    index that addresses it, and [Utf8] when none does. *)
Theorem index_error_iff pyarrow_eligible has_header projection new_columns override m :
  NoDup projection →
  is_max projection m →
  override ≠ [] →
  (length override ≤ length projection)%nat →
  (read_csv pyarrow_eligible has_header (Some projection) None new_columns
     (DtList override)
   = Raise (IndexError msg_index)
   ↔ ∃ i column_idx,
       projection !! i = Some column_idx ∧ (i < length override)%nat
       ∧ column_idx < - Z.max 0 (m + 1))
  ∧ ((∀ i column_idx,
        projection !! i = Some column_idx → (i < length override)%nat →
        - Z.max 0 (m + 1) ≤ column_idx) →
     ∃ dtypes_list,
       read_csv pyarrow_eligible has_header (Some projection) None new_columns
         (DtList override)
       = Ok (NativeReader (ByIndex (Some projection)) (DtList dtypes_list))
       ∧ Z.of_nat (length dtypes_list) = m + 1
       ∧ last_write_wins projection override dtypes_list).
Proof.
  intros _ Hmax Hoverride Hlen.
  assert (projection ≠ []) as Hprojection.
  { apply nonempty_length. apply nonempty_length in Hoverride. lia. }
  rewrite read_csv_with_dtypes by done. cbn [truthy andb mbind result_bind].
  unfold dtypes_with_projection. rewrite truthy_nonempty by done.
  cbn [dtypes_truthy isinstance_list as_list seq_of].
  rewrite bool_decide_eq_true_2 by done. cbn [andb].
  destruct (Nat.ltb_spec (length projection) (length override)); [lia|].
  destruct projection as [|x xs]; [done|]. cbn [PyList.max mbind result_bind].
  rewrite <- (is_max_unique _ _ _ Hmax (is_max_foldr x xs)).
  assert (Z.of_nat (length (PyList.repeat Utf8 (m + 1))) = Z.max 0 (m + 1)) as Hsize.
  { unfold PyList.repeat. rewrite length_replicate. lia. }
  assert (∀ column_idx, column_idx ∈ x :: xs → column_idx ≤ m) as Hle.
  { by destruct Hmax. }
  destruct (fill_dtypes_list_cases (x :: xs) 0 override (PyList.repeat Utf8 (m + 1)))
    as [(filled & Hrun & Hfilled & Hall)|(-> & i & c & Hi & Hlt & Hbad)].
  - rewrite Hrun. cbn [mbind result_bind].
    rewrite dtypes_with_columns_skip by auto. cbn [mbind result_bind].
    rewrite dtypes_with_new_columns_skip by auto. cbn [mbind result_bind].
    split.
    { split; [done|]. intros (i & c & Hi & Hlt & Hbad).
      specialize (Hall i c Hi). rewrite Hsize in Hall. simpl in Hall. lia. }
    intros _. exists filled. split; [done|].
    assert (0 ≤ m) as Hm.
    { destruct override as [|dtype override]; [done|].
      specialize (Hall 0%nat x eq_refl). rewrite Hsize in Hall.
      assert (x ≤ m) by (apply Hle; left). simpl in Hall. lia. }
    split; [lia|].
    intros j Hj. rewrite Hfilled in Hj.
    destruct (fill_dtypes_list_positions _ _ _ _ _ Hrun j Hj) as
      [(i & c & t & Hi & Ht & Hp & Hlast & Hj')|[Hnone Hj']].
    + left. exists i, c, t. rewrite Hfilled.
      split_and!; [done..| |done].
      intros i' c' [Hlt Hrange] Hc'. apply (Hlast i' c'); [done | simpl; lia | done].
    + right. rewrite Hfilled. split.
      * intros i c Hrange Hc. apply (Hnone i c); [simpl; lia | done].
      * rewrite Hj'. apply lookup_replicate_2.
        unfold PyList.repeat in Hj. by rewrite length_replicate in Hj.
  - cbn [mbind result_bind]. split.
    { split; [|done]. intros _. exists i, c. split_and!; [done | simpl in Hlt; lia |].
      rewrite Hsize in Hbad. assert (c ≤ m); [|lia].
      apply Hle. by eapply list_elem_of_lookup_2. }
    intros Hgood. specialize (Hgood i c Hi). rewrite Hsize in Hbad.
    assert (c ≤ m) by (apply Hle; by eapply list_elem_of_lookup_2).
    simpl in Hlt. lia.
Qed.

(** An instance obtained from the theorem: [columns=[2, -3]] with two
    dtypes raises nothing, and index [-3] addresses position 0 of the
    three entries. *)
Lemma index_error_iff_witness :
  read_csv false true (Some [2; -3]) None None (DtList [Int64; Date])
  = Ok (NativeReader (ByIndex (Some [2; -3])) (DtList [Date; Utf8; Int64])).
Proof.
  destruct (index_error_iff false true [2; -3] None [Int64; Date] 2) as [_ Hgood].
  { decide_closed. }
  { split; [decide_closed|]. apply Forall_forall. decide_closed. }
  { done. }
  { simpl; lia. }
  destruct Hgood as (dtypes_list & -> & Hlen & Hlast).
  { intros [|[|i]] c Hc Hi; simplify_eq/=; lia. }
  destruct dtypes_list as [|t0 [|t1 [|t2 [|]]]]; simpl in Hlen; try lia.
  do 3 f_equal.
  assert (∀ j t, (j < 3)%nat → [t0; t1; t2] !! j = Some t →
            t = (if decide (j = 0%nat) then Date
                 else if decide (j = 2%nat) then Int64 else Utf8)) as Hpin.
  { intros j t Hj Ht.
    destruct (Hlast j Hj) as [(i & c & d & Hi & Hd & Hp & _ & Hj')|[Hnone Hj']].
    - rewrite Hj' in Ht. destruct i as [|[|i]]; simplify_eq/=; done.
    - rewrite Hj' in Ht. simplify_eq.
      destruct (decide (j = 0%nat)) as [->|?].
      { by destruct (Hnone 1%nat (-3)); [simpl; lia|..]. }
      destruct (decide (j = 2%nat)) as [->|?]; [|done].
      by destruct (Hnone 0%nat 2); [simpl; lia|..]. }
  rewrite (Hpin 0%nat t0), (Hpin 1%nat t1), (Hpin 2%nat t2) by (simpl; (lia || done)).
  done.
Defined.

Example read_csv_index_from_the_end :
  read_csv false true (Some [2; -3]) None None (DtList [Int64; Date])
  = Ok (NativeReader (ByIndex (Some [2; -3])) (DtList [Date; Utf8; Int64])).
Proof. reflexivity. Qed.

(** ** From a list of dtypes to final names and back *)

Lemma positional_dtypes_zip (new_columns : list string) (override : list PolarsDataType) :
  NoDup new_columns → (length override ≤ length new_columns)%nat →
  positional_dtypes (take (length override) new_columns) (zip new_columns override)
    override.
Proof.
  intros Hnodup Hlen.
  assert (PyDict.wf (zip new_columns override)) as Hwf.
  { unfold PyDict.wf, PyDict.keys. rewrite fst_zip_take.
    eapply sublist_NoDup; [done | apply sublist_take]. }
  apply Forall2_same_length_lookup_2.
  { rewrite length_take. lia. }
  intros i name dtype [Hname Hi]%lookup_take_Some Hdtype.
  apply (get_lookup_wf _ i); [done|]. by apply lookup_zip_Some.
Qed.

Lemma positional_dtypes_unique names dtypes list1 list2 :
  positional_dtypes names dtypes list1 → positional_dtypes names dtypes list2 →
  list1 = list2.
Proof.
  unfold positional_dtypes. intros H1. revert list2.
  induction H1 as [|name dtype names list1 Hget _ IH]; intros list2 H2.
  - by apply Forall2_nil_inv_l in H2.
  - apply Forall2_cons_inv_l in H2 as (dtype' & list2' & Hget' & H2 & ->).
    f_equal; [congruence | by apply IH].
Qed.

(** X13. The dict that [scan_csv] builds from a list of dtypes and
    distinct new names (line 892) is read back by [read_csv]: given this
    dict and the same rename list on a source with header and no
    selection, the test of lines 337-349 hands the reader the original
    list. *)
Theorem list_dtypes_by_final_name_round_trip pyarrow_eligible new_columns override :
  NoDup new_columns →
  override ≠ [] →
  (length override ≤ length new_columns)%nat →
  ∃ dtypes f,
    scan_csv (Some new_columns) None (DtList override)
    = inr (LazyScan (DtDict dtypes) (Some f))
    ∧ read_csv pyarrow_eligible true None None (Some new_columns) (DtDict dtypes)
      = Ok (NativeReader (ByIndex None) (DtList override)).
Proof.
  intros Hnodup Hoverride Hlen.
  assert (new_columns ≠ []) as Hnew.
  { apply nonempty_length. apply nonempty_length in Hoverride. lia. }
  assert (PyDict.wf (zip new_columns override)) as Hwf.
  { unfold PyDict.wf, PyDict.keys. rewrite fst_zip_take.
    eapply sublist_NoDup; [done | apply sublist_take]. }
  assert (length (zip new_columns override) = length override) as Hzip.
  { rewrite length_zip. lia. }
  exists (zip new_columns override), (with_new_columns new_columns). split.
  - unfold scan_csv. rewrite truthy_nonempty by done.
    cbn [negb andb seq_of dtypes_truthy isinstance_list as_list].
    rewrite bool_decide_eq_true_2 by done. cbn [andb]. by rewrite of_pairs_wf.
  - rewrite read_csv_dict by (intros _; constructor).
    unfold dtypes_with_new_columns, current_columns_of.
    rewrite truthy_nonempty by done.
    cbn [dtypes_truthy isinstance_dict as_dict seq_of truthy negb].
    rewrite bool_decide_eq_true_2 by (by apply zip_nonempty). cbn [andb].
    rewrite Hzip.
    destruct (Nat.leb_spec (length override) (length new_columns)); [|lia].
    pose proof (positional_dtypes_zip new_columns override Hnodup Hlen) as Hpos.
    assert (positional_dtypes (take (length override) new_columns)
              (zip new_columns override)
              (omap (λ name, PyDict.get name (zip new_columns override))
                 (take (length override) new_columns))) as Hpos'.
    { apply omap_get_positional. intros name Hname.
      unfold PyDict.keys. by rewrite fst_zip_take. }
    rewrite <- (positional_dtypes_unique _ _ _ _ Hpos Hpos').
    by rewrite Nat.eqb_refl.
Qed.

Lemma list_dtypes_by_final_name_round_trip_witness :
  ∃ dtypes f,
    scan_csv (Some ["x"; "y"; "z"]) None (DtList [Int64; Date])
    = inr (LazyScan (DtDict dtypes) (Some f))
    ∧ read_csv false true None None (Some ["x"; "y"; "z"]) (DtDict dtypes)
      = Ok (NativeReader (ByIndex None) (DtList [Int64; Date])).
Proof.
  apply list_dtypes_by_final_name_round_trip; [decide_closed | done | simpl; lia].
Defined.

(** ** Generated names and rewritten dicts, pinned *)

Lemma is_unsigned_numeral_pretty p :
  is_unsigned_numeral (Z.pos p) (pretty_N_go (N.pos p) EmptyString) = true.
Proof.
  destruct (pretty_N_go_leading (N.pos p) EmptyString) as (c & rest & Hgo & Hc); [lia|].
  pose proof (pretty_N_go_digits (N.pos p) EmptyString eq_refl) as Hdigits.
  destruct (decimal_go_pretty_N_go (N.pos p) 0 EmptyString) as (k & _ & Hvalue).
  rewrite Hgo in *. unfold is_unsigned_numeral.
  rewrite Hdigits, Hvalue. cbn [decimal_go].
  rewrite (bool_decide_eq_false_2 _ Hc). simpl negb. cbn [andb orb].
  apply bool_decide_eq_true_2. f_equal; lia.
Qed.

(** The decimal form that [f"{n}"] gives to an integer is its numeral. *)
Lemma is_numeral_pretty n : is_numeral n (pretty n) = true.
Proof.
  destruct n as [|p|p]; [done|..]; unfold is_numeral.
  - rewrite bool_decide_eq_true_2 by lia. apply is_unsigned_numeral_pretty.
  - rewrite bool_decide_eq_false_2 by lia.
    change (pretty (Z.neg p))
      with (String "-"%char (pretty_N_go (N.pos p) EmptyString)).
    cbv beta iota. rewrite bool_decide_eq_true_2 by done.
    apply is_unsigned_numeral_pretty.
Qed.

(** [f"column_{n}"] is [column_<n>], for every integer [n]. *)
Lemma column_name_is_column_n n : is_column_n n (column_name n) = true.
Proof.
  unfold is_column_n, column_name. rewrite strip_prefix_app. apply is_numeral_pretty.
Qed.

Lemma get_Some_elem {V} (k : string) (v : V) (d : pydict V) :
  PyDict.get k d = Some v → (k, v) ∈ d.
Proof.
  induction d as [|[k0 v0] d IH]; simpl; [done|].
  case_decide; intros ?; simplify_eq; [left | right; auto].
Qed.

(** [dict(items)] is the dict of the items. *)
Lemma of_pairs_items {V} (items : list (string * V)) :
  dict_of_items items (PyDict.of_pairs items).
Proof.
  split; [apply of_pairs_is_wf|]. intros k v. split.
  - intros Hin. apply list_elem_of_lookup in Hin as [n Hn].
    apply get_lookup_wf in Hn; [|apply of_pairs_is_wf].
    destruct (get_of_pairs items k) as [[Hnone _]|(i & v' & Hget & Hi & Hlast)];
      [congruence|].
    exists i. split; [congruence | done].
  - intros (i & Hi & Hlast). apply get_Some_elem.
    destruct (get_of_pairs items k) as [[_ Hnot]|(i' & v' & Hget & Hi' & Hlast')].
    + destruct Hnot. apply list_elem_of_fmap. exists (k, v). split; [done|].
      by eapply list_elem_of_lookup_2.
    + destruct (Nat.lt_trichotomy i i') as [Hlt|[->|Hlt]].
      * by destruct (Hlast i' v' Hlt).
      * congruence.
      * by destruct (Hlast' i v Hlt).
Qed.

Lemma digit_value_range c d : digit_value c = Some d → 0 ≤ d ≤ 9.
Proof.
  unfold digit_value, is_digit. destruct (_ && _) eqn:Hd; [|done].
  intros [= <-]. apply andb_true_iff in Hd as [H1%Nat.leb_le H2%Nat.leb_le]. lia.
Qed.

Lemma digit_value_is_digit c : is_digit c = true → is_Some (digit_value c).
Proof. unfold digit_value. intros ->. eauto. Qed.

Lemma digit_value_inj c c' d :
  digit_value c = Some d → digit_value c' = Some d → c = c'.
Proof.
  unfold digit_value. destruct (is_digit c), (is_digit c'); try done.
  intros [= H1] [= H2].
  rewrite <- (ascii_nat_embedding c), <- (ascii_nat_embedding c'). f_equal. lia.
Qed.

Lemma digit_value_zero c : digit_value c = Some 0 → c = "0"%char.
Proof. intros H. by apply (digit_value_inj c "0"%char 0). Qed.

(** The value of a string of digits, read after [acc]. *)
Lemma decimal_go_value s :
  all_digits s = true →
  ∃ v, 0 ≤ v < 10 ^ Z.of_nat (String.length s)
       ∧ ∀ acc, decimal_go acc s = Some (acc * 10 ^ Z.of_nat (String.length s) + v).
Proof.
  induction s as [|c r IH]; intros Hs.
  - exists 0. split; [simpl; lia|]. intros acc. simpl. f_equal. lia.
  - cbn [all_digits] in Hs. apply andb_true_iff in Hs as [Hc Hr].
    destruct (IH Hr) as (v & Hv & Hgo).
    destruct (digit_value_is_digit c Hc) as [d Hd].
    pose proof (digit_value_range c d Hd).
    cbn [String.length]. rewrite Nat2Z.inj_succ, Z.pow_succ_r by lia.
    set (P := 10 ^ Z.of_nat (String.length r)) in *.
    exists (d * P + v). split; [nia|].
    intros acc. cbn [decimal_go]. rewrite Hd, Hgo. f_equal. lia.
Qed.

Lemma decimal_go_same_length s : ∀ t a b,
  all_digits s = true → all_digits t = true →
  String.length s = String.length t →
  decimal_go a s = decimal_go b t → a = b ∧ s = t.
Proof.
  induction s as [|c r IH]; intros [|c' r'] a b Hs Ht Hlen Hgo; try done.
  - simpl in Hgo. by simplify_eq.
  - cbn [all_digits] in Hs, Ht.
    apply andb_true_iff in Hs as [Hc Hr]. apply andb_true_iff in Ht as [Hc' Hr'].
    destruct (digit_value_is_digit c Hc) as [d Hd].
    destruct (digit_value_is_digit c' Hc') as [d' Hd'].
    pose proof (digit_value_range c d Hd). pose proof (digit_value_range c' d' Hd').
    cbn [decimal_go] in Hgo. rewrite Hd, Hd' in Hgo.
    destruct (IH r' (10 * a + d) (10 * b + d')) as [Hacc ->]; [done..| |done|].
    { simpl in Hlen. lia. }
    assert (a = b ∧ d = d') as [-> ->] by lia.
    split; [done|]. f_equal. by eapply digit_value_inj.
Qed.

Lemma is_unsigned_numeral_unique n s t :
  is_unsigned_numeral n s = true → is_unsigned_numeral n t = true → s = t.
Proof.
  assert (∀ c r, all_digits (String c r) = true → c ≠ "0"%char →
            ∃ v, decimal_go 0 (String c r) = Some v
                 ∧ 10 ^ Z.of_nat (String.length r) ≤ v
                   < 10 ^ Z.of_nat (S (String.length r))) as Hbounds.
  { intros c r Hs Hc. cbn [all_digits] in Hs. apply andb_true_iff in Hs as [Hd Hr].
    destruct (decimal_go_value r Hr) as (v & Hv & Hgo).
    destruct (digit_value_is_digit c Hd) as [d Hdv].
    pose proof (digit_value_range c d Hdv).
    assert (d ≠ 0) by (intros ->; by apply Hc, digit_value_zero).
    cbn [decimal_go]. rewrite Hdv, Hgo. eexists. split; [done|].
    rewrite Nat2Z.inj_succ, Z.pow_succ_r by lia. nia. }
  unfold is_unsigned_numeral.
  destruct s as [|c r]; [done|]. destruct t as [|c' r']; [done|].
  intros [[Hs Hlead]%andb_true_iff Hv%bool_decide_eq_true]%andb_true_iff.
  intros [[Ht Hlead']%andb_true_iff Hv'%bool_decide_eq_true]%andb_true_iff.
  apply orb_true_iff in Hlead, Hlead'.
  assert (∀ c r, all_digits (String c r) = true →
            decimal_go 0 (String c r) = Some n → c = "0"%char →
            r = EmptyString → n = 0) as Hzero.
  { intros ? ? _ Hgo -> ->. simpl in Hgo. by simplify_eq. }
  destruct (decide (c = "0"%char)) as [Hc|Hc], (decide (c' = "0"%char)) as [Hc'|Hc'].
  - destruct Hlead as [Hl|Hl%bool_decide_eq_true];
      [by rewrite bool_decide_eq_true_2 in Hl|].
    destruct Hlead' as [Hl'|Hl'%bool_decide_eq_true];
      [by rewrite bool_decide_eq_true_2 in Hl'|]. by subst.
  - destruct Hlead as [Hl|Hl%bool_decide_eq_true];
      [by rewrite bool_decide_eq_true_2 in Hl|].
    pose proof (Hzero _ _ Hs Hv Hc Hl) as ->.
    destruct (Hbounds c' r' Ht Hc') as (v & Hgo & Hle & _).
    assert (0 < 10 ^ Z.of_nat (String.length r')) by (apply Z.pow_pos_nonneg; lia).
    rewrite Hv' in Hgo. simplify_eq. lia.
  - destruct Hlead' as [Hl'|Hl'%bool_decide_eq_true];
      [by rewrite bool_decide_eq_true_2 in Hl'|].
    pose proof (Hzero _ _ Ht Hv' Hc' Hl') as ->.
    destruct (Hbounds c r Hs Hc) as (v & Hgo & Hle & _).
    assert (0 < 10 ^ Z.of_nat (String.length r)) by (apply Z.pow_pos_nonneg; lia).
    rewrite Hv in Hgo. simplify_eq. lia.
  - destruct (Hbounds c r Hs Hc) as (v & Hgo & Hle & Hlt).
    destruct (Hbounds c' r' Ht Hc') as (v' & Hgo' & Hle' & Hlt').
    rewrite Hv in Hgo. rewrite Hv' in Hgo'. simplify_eq.
    assert (String.length r = String.length r') as Hlen.
    { destruct (Nat.lt_trichotomy (String.length r) (String.length r')) as [Hl|[Hl|Hl]];
        [|done|].
      - pose proof (Z.pow_le_mono_r 10 (Z.of_nat (S (String.length r)))
                      (Z.of_nat (String.length r'))). lia.
      - pose proof (Z.pow_le_mono_r 10 (Z.of_nat (S (String.length r')))
                      (Z.of_nat (String.length r))). lia. }
    apply (decimal_go_same_length _ _ 0 0); [done..| simpl; lia | congruence].
Qed.

Lemma is_numeral_unique n s t :
  is_numeral n s = true → is_numeral n t = true → s = t.
Proof.
  unfold is_numeral. case_bool_decide; [apply is_unsigned_numeral_unique|].
  destruct s as [|c r]; [done|]. destruct t as [|c' r']; [done|].
  intros [->%bool_decide_eq_true Hr]%andb_true_iff
         [->%bool_decide_eq_true Hr']%andb_true_iff.
  f_equal. by eapply is_unsigned_numeral_unique.
Qed.

Lemma strip_prefix_Some p : ∀ s rest, strip_prefix p s = Some rest → s = p +:+ rest.
Proof.
  induction p as [|a p IH]; intros [|b s] rest Hstrip; simpl in *; simplify_eq; try done.
  destruct (decide (a = b)) as [->|?]; [|done].
  change (String b p +:+ rest) with (String b (p +:+ rest)). f_equal. by apply IH.
Qed.

(** There is one name [column_<n>] for every integer [n]. *)
Lemma is_column_n_unique n name name' :
  is_column_n n name = true → is_column_n n name' = true → name = name'.
Proof.
  unfold is_column_n.
  destruct (strip_prefix _ name) as [s|] eqn:Hs; [|done].
  destruct (strip_prefix _ name') as [t|] eqn:Ht; [|done].
  intros Hn Hn'. apply strip_prefix_Some in Hs as ->. apply strip_prefix_Some in Ht as ->.
  f_equal. by eapply is_numeral_unique.
Qed.

(** C7. For every call with [has_header=False], no selection, a rename
    list [new_columns] and a dict of dtypes, the keys are rewritten
    against the generated names [column_1], ..., [column_n] with
    [n = len(new_columns)], in this order: the current name of position
    [i] (from 0) is [column_<i+1>], a key that is a new name goes to the
    current name at its position, every other key is kept, and the dict
    handed to the reader is the dict of the rewritten items. *)
Theorem dtype_keys_renamed_to_generated
    pyarrow_eligible new_columns (dtypes : pydict PolarsDataType) :
  PyDict.wf dtypes →
  ∃ current_columns rename result,
    length current_columns = length new_columns
    ∧ (∀ i name, current_columns !! i = Some name →
         is_column_n (Z.of_nat i + 1) name = true)
    ∧ renames_back new_columns current_columns rename
    ∧ dict_of_items ((λ item, (rename item.1, item.2)) <$> dtypes) result
    ∧ result = rekeyed rename dtypes
    ∧ read_csv pyarrow_eligible false None None (Some new_columns) (DtDict dtypes)
      = Ok (NativeReader (ByIndex None) (DtDict result)).
Proof.
  intros Hwf.
  set (generated := column_name <$> seqZ 1 (Z.of_nat (length new_columns))).
  destruct (rename_dtypes_rekeyed new_columns generated dtypes)
    as (rename & Hrename & Hrekeyed).
  exists generated, rename, (rekeyed rename dtypes). split_and!.
  - unfold generated. rewrite length_fmap, length_seqZ. lia.
  - intros i name Hname. unfold generated in Hname.
    apply list_lookup_fmap_Some in Hname as (n & -> & [-> _]%lookup_seqZ).
    rewrite Z.add_comm. apply column_name_is_column_n.
  - done.
  - apply of_pairs_items.
  - done.
  - rewrite read_csv_dict by (intros _; constructor).
    rewrite (dtypes_with_new_columns_known _ _ _ _ _ generated).
    + cbn [mbind result_bind]. by rewrite Hrekeyed.
    + done.
    + intros Hnew Hdtypes. split.
      * apply nonempty_length. unfold generated.
        rewrite length_fmap, length_seqZ. apply nonempty_length in Hnew. lia.
      * unfold current_columns_of, PyList.range, generated. cbn [truthy negb].
        by replace (Z.of_nat (length new_columns) + 1 - 1)
          with (Z.of_nat (length new_columns)) by lia.
Qed.

(** The example of C7, and one that reaches every position, obtained
    from the theorem: with [new_columns=["x","y","z"]],
    [dtypes={"x": Int64}] gives [{"column_1": Int64}] and
    [dtypes={"z": Date, "x": Int64, "y": Utf8}] gives
    [{"column_3": Date, "column_1": Int64, "column_2": Utf8}]. *)
Lemma dtype_keys_renamed_to_generated_witness :
  read_csv false false None None (Some ["x"; "y"; "z"]) (DtDict [("x", Int64)])
  = Ok (NativeReader (ByIndex None) (DtDict [("column_1", Int64)]))
  ∧ read_csv false false None None (Some ["x"; "y"; "z"])
      (DtDict [("z", Date); ("x", Int64); ("y", Utf8)])
    = Ok (NativeReader (ByIndex None)
            (DtDict [("column_3", Date); ("column_1", Int64); ("column_2", Utf8)])).
Proof.
  assert (∀ current_columns rename,
    length current_columns = length ["x"; "y"; "z"] →
    (∀ i name, current_columns !! i = Some name →
       is_column_n (Z.of_nat i + 1) name = true) →
    renames_back ["x"; "y"; "z"] current_columns rename →
    rename "x" = "column_1" ∧ rename "y" = "column_2" ∧ rename "z" = "column_3")
    as Hnames.
  { intros current rename Hlen Hpin Hrename.
    destruct current as [|n1 [|n2 [|n3 [|]]]]; try done.
    pose proof (is_column_n_unique 1 n1 "column_1" (Hpin 0%nat n1 eq_refl) eq_refl) as ->.
    pose proof (is_column_n_unique 2 n2 "column_2" (Hpin 1%nat n2 eq_refl) eq_refl) as ->.
    pose proof (is_column_n_unique 3 n3 "column_3" (Hpin 2%nat n3 eq_refl) eq_refl) as ->.
    split_and!.
    - destruct (Hrename "x") as [[Hnone _]|(i & Hi & Hcur & _)].
      + by destruct (Hnone 0%nat); [simpl; lia|].
      + destruct i as [|[|[|i]]]; simplify_eq/=. done.
    - destruct (Hrename "y") as [[Hnone _]|(i & Hi & Hcur & _)].
      + by destruct (Hnone 1%nat); [simpl; lia|].
      + destruct i as [|[|[|i]]]; simplify_eq/=. done.
    - destruct (Hrename "z") as [[Hnone _]|(i & Hi & Hcur & _)].
      + by destruct (Hnone 2%nat); [simpl; lia|].
      + destruct i as [|[|[|i]]]; simplify_eq/=. done. }
  split.
  - destruct (dtype_keys_renamed_to_generated false ["x"; "y"; "z"] [("x", Int64)])
      as (current & rename & result & Hlen & Hpin & Hrename & _ & -> & ->);
      [decide_closed|].
    destruct (Hnames current rename Hlen Hpin Hrename) as (Hx & _ & _).
    unfold rekeyed. cbn [fmap list_fmap fst snd]. rewrite Hx. reflexivity.
  - destruct (dtype_keys_renamed_to_generated false ["x"; "y"; "z"]
                [("z", Date); ("x", Int64); ("y", Utf8)])
      as (current & rename & result & Hlen & Hpin & Hrename & _ & -> & ->);
      [decide_closed|].
    destruct (Hnames current rename Hlen Hpin Hrename) as (Hx & Hy & Hz).
    unfold rekeyed. cbn [fmap list_fmap fst snd]. rewrite Hx, Hy, Hz. reflexivity.
Defined.

(** C10. For every call with [has_header=False], a (non-empty)
    projection by index, a dict of dtypes and a rename list strictly
    longer than the projection, nothing is raised: the current name of
    the [i]-th projected index [idx] is [column_<idx+1>], only the first
    [len(projection)] new names are paired with these names, a key that
    is one of them goes to the current name at its position, and every
    other key, such as one of the extra new names, is kept; the dict
    handed to the reader is the dict of the rewritten items. *)
Theorem extra_new_columns_ignored
    pyarrow_eligible projection new_columns (dtypes : pydict PolarsDataType) :
  projection ≠ [] →
  (length projection < length new_columns)%nat →
  ∃ current_columns rename result,
    Forall2 (λ column_idx name, is_column_n (column_idx + 1) name = true)
      projection current_columns
    ∧ renames_back new_columns current_columns rename
    ∧ (∀ name, name ∉ take (length projection) new_columns → rename name = name)
    ∧ dict_of_items ((λ item, (rename item.1, item.2)) <$> dtypes) result
    ∧ result = rekeyed rename dtypes
    ∧ read_csv pyarrow_eligible false (Some projection) None (Some new_columns)
        (DtDict dtypes)
      = Ok (NativeReader (ByIndex (Some projection)) (DtDict result)).
Proof.
  intros Hprojection Hlen.
  set (generated := (λ column_idx, column_name (column_idx + 1)) <$> projection).
  destruct (rename_dtypes_rekeyed new_columns generated dtypes)
    as (rename & Hrename & Hrekeyed).
  exists generated, rename, (rekeyed rename dtypes). split_and!.
  - unfold generated. apply Forall2_fmap_r, Forall_Forall2_diag, Forall_forall.
    intros column_idx _. apply column_name_is_column_n.
  - done.
  - intros name Hname.
    destruct (Hrename name) as [[_ ?]|(i & Hi & Hcur & _)]; [done|].
    destruct Hname. apply list_elem_of_lookup. exists i.
    apply lookup_lt_Some in Hcur. unfold generated in Hcur.
    rewrite length_fmap in Hcur. by rewrite lookup_take_lt.
  - apply of_pairs_items.
  - done.
  - rewrite read_csv_dict by (intros _; constructor).
    rewrite (dtypes_with_new_columns_known _ _ _ _ _ generated).
    + cbn [mbind result_bind]. by rewrite Hrekeyed.
    + intros ->. simpl in Hlen. lia.
    + intros Hnew Hdtypes. split.
      * apply nonempty_length. unfold generated. rewrite length_fmap.
        by apply nonempty_length.
      * unfold current_columns_of. rewrite truthy_nonempty by done. done.
Qed.

(** An instance of C10 obtained from the theorem: with [columns=[4, 0]]
    and [new_columns=["x","y","z"]], [dtypes={"y": Int64, "z": Date,
    "x": Utf8}] gives [{"column_1": Int64, "z": Date, "column_5": Utf8}]:
    [x] and [y] are paired with the names of indices 4 and 0, the extra
    name [z] is kept. *)
Lemma extra_new_columns_ignored_witness :
  read_csv false false (Some [4; 0]) None (Some ["x"; "y"; "z"])
    (DtDict [("y", Int64); ("z", Date); ("x", Utf8)])
  = Ok (NativeReader (ByIndex (Some [4; 0]))
          (DtDict [("column_1", Int64); ("z", Date); ("column_5", Utf8)])).
Proof.
  destruct (extra_new_columns_ignored false [4; 0] ["x"; "y"; "z"]
              [("y", Int64); ("z", Date); ("x", Utf8)])
    as (current & rename & result & Hpin & Hrename & Hextra & _ & -> & ->);
    [done | simpl; lia |].
  apply Forall2_cons_inv_l in Hpin as (n1 & rest1 & Hn1 & Hpin & ->).
  apply Forall2_cons_inv_l in Hpin as (n2 & rest2 & Hn2 & Hpin & ->).
  apply Forall2_nil_inv_l in Hpin as ->.
  pose proof (is_column_n_unique 5 n1 "column_5" Hn1 eq_refl) as ->.
  pose proof (is_column_n_unique 1 n2 "column_1" Hn2 eq_refl) as ->.
  assert (rename "x" = "column_5") as Hx.
  { destruct (Hrename "x") as [[Hnone _]|(i & Hi & Hcur & _)].
    - by destruct (Hnone 0%nat); [simpl; lia|].
    - destruct i as [|[|[|i]]]; simplify_eq/=. done. }
  assert (rename "y" = "column_1") as Hy.
  { destruct (Hrename "y") as [[Hnone _]|(i & Hi & Hcur & _)].
    - by destruct (Hnone 1%nat); [simpl; lia|].
    - destruct i as [|[|[|i]]]; simplify_eq/=. done. }
  assert (rename "z" = "z") as Hz.
  { apply Hextra. decide_closed. }
  unfold rekeyed. cbn [fmap list_fmap fst snd]. rewrite Hx, Hy, Hz. reflexivity.
Defined.
